(** * Document-processing pipeline: model and verified properties

    A shallow embedding of the server's route handlers
    ([registerRoutes]), of the asynchronous pipeline ([processDocument],
    [enhanceAnalysisWithAI], [withTimeout]), of the storage class
    ([MongoStorage]) and of the Gemini helpers ([isGeminiConfigured],
    [generateDocumentSummary], [extractKeywords]).

    Stateful code is written in a state-and-exception monad over a
    [World] that holds the MongoDB collections, the upload directory on
    disk, the detached (un-awaited) promises and a log of the calls made
    to collaborators.  Third-party code (pdf-parse, the nlp module, the
    AI providers, the MongoDB driver's failures) is a parameter: an
    [Env] says what every external call answers. *)

From Stdlib Require Import ZArith String Ascii.
From stdpp Require Import gmap strings list fin_maps sorting.

Local Open Scope string_scope.
Local Open Scope list_scope.
Local Open Scope stdpp_scope.

(** ** JavaScript strings *)

(** Free text (document contents, summaries, keywords, chat messages) is
    a sequence of UTF-16 code units, so that [length] is JavaScript's
    [.length].  Identifiers, labels, file names and messages written as
    literals in the source are plain [string]s. *)
Definition Text := list N.

Definition utf16 (s : string) : Text :=
  map N_of_ascii (list_ascii_of_string s).

(** [substring(0, n)] for [0 <= n]. *)
Definition substring0 (n : nat) (t : Text) : Text := take n t.

(** White space and line terminators stripped by [String.prototype.trim]. *)
Definition isWhite (c : N) : bool :=
  bool_decide (c ∈ [9; 10; 11; 12; 13; 32; 160; 5760; 8232; 8233; 8239;
                    8287; 12288; 65279]%N)
  || ((8192 <=? c)%N && (c <=? 8202)%N).

Fixpoint dropWhite (t : Text) : Text :=
  match t with
  | c :: r => if isWhite c then dropWhite r else t
  | [] => []
  end.

Definition trim (t : Text) : Text := rev (dropWhite (rev (dropWhite t))).

(** [t.split(/[.!?]+/)]: the pieces between maximal runs of sentence
    punctuation; a run at either end yields an empty piece there.
    [cur] is the piece being read, reversed; [inRun] tells that the
    previous code unit belonged to a run. *)
Definition isSentenceEnd (c : N) : bool :=
  bool_decide (c ∈ [46; 33; 63]%N).

Fixpoint splitRuns (cur : Text) (inRun : bool) (t : Text) : list Text :=
  match t with
  | [] => [rev cur]
  | c :: r =>
      if isSentenceEnd c
      then (if inRun then splitRuns [] true r
            else rev cur :: splitRuns [] true r)
      else splitRuns (c :: cur) false r
  end.

Definition splitSentences (t : Text) : list Text := splitRuns [] false t.

(** [t.split(",")]: every separator ends a piece. *)
Fixpoint splitAt (sep : N) (cur : Text) (t : Text) : list Text :=
  match t with
  | [] => [rev cur]
  | c :: r =>
      if (c =? sep)%N then rev cur :: splitAt sep [] r
      else splitAt sep (c :: cur) r
  end.

Definition splitComma (t : Text) : list Text := splitAt 44%N [] t.

(** [pieces.join(sep)]. *)
Fixpoint join (sep : Text) (pieces : list Text) : Text :=
  match pieces with
  | [] => []
  | [p] => p
  | p :: rest => p ++ sep ++ join sep rest
  end.

(** [Array.from(new Set(l))]: the first occurrence of every element, in
    order. *)
Fixpoint uniq (l : list Text) : list Text :=
  match l with
  | [] => []
  | x :: r => x :: filter (λ y, y ≠ x) (uniq r)
  end.

(** [!s] on a string: only the empty string is falsy. *)
Definition falsy (s : string) : bool := bool_decide (s = "").

(** ** Results of calls *)

Definition Error := string.

(** A call either returns or throws. *)
Inductive Result (A : Type) : Type :=
| Ok (a : A)
| Throw (e : Error).
Arguments Ok {A} a.
Arguments Throw {A} e.

(** A promise of an external service, with the time (milliseconds after
    the call) at which it settles. *)
Inductive Promise (A : Type) : Type :=
| Fulfills (ms : Z) (a : A)
| Rejects (ms : Z) (e : Error)
| NeverSettles.
Arguments Fulfills {A} ms a.
Arguments Rejects {A} ms e.
Arguments NeverSettles {A}.

Definition promiseMap {A B} (f : A → B) (p : Promise A) : Promise B :=
  match p with
  | Fulfills ms a => Fulfills ms (f a)
  | Rejects ms e => Rejects ms e
  | NeverSettles => NeverSettles
  end.

(** [Promise.all([p, q])]: fulfilled once both are, rejected as soon as
    one is. *)
Definition promiseAll {A B} (p : Promise A) (q : Promise B) : Promise (A * B) :=
  match p, q with
  | Fulfills m a, Fulfills n b => Fulfills (Z.max m n) (a, b)
  | Rejects m e, Rejects n e' => if (m <=? n)%Z then Rejects m e else Rejects n e'
  | Rejects m e, _ => Rejects m e
  | _, Rejects n e => Rejects n e
  | _, _ => NeverSettles
  end.

(** [withTimeout(promise, timeoutMs, errorMsg)] races the promise with a
    timer that rejects with [errorMsg] after [timeoutMs]; the promise wins
    when it settles strictly before the timer fires. *)
Definition withTimeout {A} (promise : Promise A) (timeoutMs : Z)
    (errorMsg : Error) : Result A :=
  match promise with
  | Fulfills ms a => if (ms <? timeoutMs)%Z then Ok a else Throw errorMsg
  | Rejects ms e => if (ms <? timeoutMs)%Z then Throw e else Throw errorMsg
  | NeverSettles => Throw errorMsg
  end.

(** Whether a promise settles before [t] milliseconds have passed. *)
Definition settlesBefore {A} (p : Promise A) (t : Z) : bool :=
  match p with
  | Fulfills ms _ | Rejects ms _ => (ms <? t)%Z
  | NeverSettles => false
  end.

(** ** Data model *)

(** A value that reaches a parameter declared [id: string]: a string taken
    from the request, or the driver's ObjectId found in [doc._id]. *)
Inductive IdVal : Type :=
| IdStr (s : string)
| IdObj (o : N).

Global Instance IdVal_eq_dec : EqDecision IdVal.
Proof. solve_decision. Defined.

Definition Buffer := list N.

(** A record of the documents collection; its [_id] is the key under
    which the collection holds it, and the storage class hands records out
    as pairs [(_id, record)]. *)
Record Document := {
  userId : string;
  filename : string;
  originalName : string;
  mimeType : string;
  fileSize : Z;
  status : string;
  processingProgress : option Z;
  processedAt : option Z;
  pageCount : option Z;
}.

(** [Partial<Document>] as passed to [updateDocument]: the fields the
    program ever updates. *)
Record DocUpdate := {
  u_status : option string;
  u_processingProgress : option Z;
  u_processedAt : option Z;
  u_pageCount : option Z;
}.

Definition noUpdate : DocUpdate :=
  {| u_status := None; u_processingProgress := None;
     u_processedAt := None; u_pageCount := None |}.

Definition orElse {A} (new : option A) (old : option A) : option A :=
  match new with Some _ => new | None => old end.

(** The effect of [{ $set: updates }] on a stored document. *)
Definition applyUpdate (u : DocUpdate) (d : Document) : Document :=
  {| userId := userId d; filename := filename d;
     originalName := originalName d; mimeType := mimeType d;
     fileSize := fileSize d;
     status := default (status d) (u_status u);
     processingProgress := orElse (u_processingProgress u) (processingProgress d);
     processedAt := orElse (u_processedAt u) (processedAt d);
     pageCount := orElse (u_pageCount u) (pageCount d) |}.

Record Page := {
  pg_id : N;
  pg_documentId : IdVal;
  pageNumber : Z;
  extractedText : Text;
  ocrConfidence : Z;
}.

(** Entities are produced by the nlp module and only passed through. *)
Definition Entity := Text.

Record DocumentAnalysis := {
  summary : Text;
  keywords : list Text;
  entities : list Entity;
  tables : list Text;
  wordCount : Z;
  characterCount : Z;
}.

Record Extraction := {
  ex_id : N;
  ex_documentId : IdVal;
  extractionType : string;
  data : DocumentAnalysis;
}.

Record ChatMessage := {
  cm_id : N;
  cm_documentId : IdVal;
  cm_userId : string;
  cm_role : string;
  cm_content : Text;
}.

Record TextStatistics := {
  st_wordCount : Z;
  st_characterCount : Z;
}.

(** What pdf-parse resolves to; either field may be missing. *)
Record PdfData := {
  pdf_text : option Text;
  numpages : option Z;
}.

(** ** Detached promises and the call log *)

(** Promises the program starts and does not await. *)
Inductive Task : Type :=
| TProcessUpload (documentId : IdVal) (filePath : string)
| TProcessRetry (documentId : IdVal) (filePath : string)
| TEnhance (documentId : IdVal) (text : Text)
| TStartupSweep.

(** Calls made to collaborators, oldest first; a storage call is logged
    when it is issued, whether the driver then carries it out or not. *)
Inductive Event : Type :=
| CallProcessDocument (documentId : IdVal) (filePath : string)
| CallCreateDocument (oid : N) (d : Document)
| CallUpdateDocument (oid : N) (u : DocUpdate)
| CallDeleteDocument (oid : N)
| CallCreatePage (p : Page)
| CallCreateExtraction (e : Extraction)
| CallUpdateExtraction (oid : N) (a : DocumentAnalysis)
| CallCreateChatMessage (m : ChatMessage)
| CallReadFile (path : string)
| CallUnlink (path : string)
| CallPdfParse (buffer : Buffer) (timeoutMs : Z)
| CallGetTextStatistics (t : Text)
| CallNlp (t : Text) (timeoutMs : Z)
| CallGemini (t : Text) (timeoutMs : Z)
| CallEnhance (documentId : IdVal) (text : Text)
| ConsoleError (what : string).

Record World := {
  documents : gmap N Document;
  pages : list Page;
  extractions : list Extraction;
  chatMessages : list ChatMessage;
  disk : gmap string Buffer;
  nextObjectId : N;
  pending : list Task;
  calls : list Event;
}.

Definition set_documents (f : gmap N Document → gmap N Document) (w : World) : World :=
  {| documents := f (documents w); pages := pages w; extractions := extractions w;
     chatMessages := chatMessages w; disk := disk w;
     nextObjectId := nextObjectId w; pending := pending w; calls := calls w |}.

Definition set_pages (f : list Page → list Page) (w : World) : World :=
  {| documents := documents w; pages := f (pages w); extractions := extractions w;
     chatMessages := chatMessages w; disk := disk w;
     nextObjectId := nextObjectId w; pending := pending w; calls := calls w |}.

Definition set_extractions (f : list Extraction → list Extraction) (w : World) : World :=
  {| documents := documents w; pages := pages w; extractions := f (extractions w);
     chatMessages := chatMessages w; disk := disk w;
     nextObjectId := nextObjectId w; pending := pending w; calls := calls w |}.

Definition set_chatMessages (f : list ChatMessage → list ChatMessage) (w : World) : World :=
  {| documents := documents w; pages := pages w; extractions := extractions w;
     chatMessages := f (chatMessages w); disk := disk w;
     nextObjectId := nextObjectId w; pending := pending w; calls := calls w |}.

Definition set_disk (f : gmap string Buffer → gmap string Buffer) (w : World) : World :=
  {| documents := documents w; pages := pages w; extractions := extractions w;
     chatMessages := chatMessages w; disk := f (disk w);
     nextObjectId := nextObjectId w; pending := pending w; calls := calls w |}.

Definition set_nextObjectId (f : N → N) (w : World) : World :=
  {| documents := documents w; pages := pages w; extractions := extractions w;
     chatMessages := chatMessages w; disk := disk w;
     nextObjectId := f (nextObjectId w); pending := pending w; calls := calls w |}.

Definition set_pending (f : list Task → list Task) (w : World) : World :=
  {| documents := documents w; pages := pages w; extractions := extractions w;
     chatMessages := chatMessages w; disk := disk w;
     nextObjectId := nextObjectId w; pending := f (pending w); calls := calls w |}.

Definition set_calls (f : list Event → list Event) (w : World) : World :=
  {| documents := documents w; pages := pages w; extractions := extractions w;
     chatMessages := chatMessages w; disk := disk w;
     nextObjectId := nextObjectId w; pending := pending w; calls := f (calls w) |}.

(** ** The monad of the program: state and exceptions *)

Definition M (A : Type) : Type := World → Result A * World.

Global Instance M_ret : MRet M := λ A a w, (Ok a, w).

Global Instance M_bind : MBind M := λ A B k m w,
  match m w with
  | (Ok a, w') => k a w'
  | (Throw e, w') => (Throw e, w')
  end.

Definition throw {A} (e : Error) : M A := λ w, (Throw e, w).

(** [try { body } catch (error) { handler(error) }]. *)
Definition tryCatch {A} (body : M A) (handler : Error → M A) : M A := λ w,
  match body w with
  | (Ok a, w') => (Ok a, w')
  | (Throw e, w') => handler e w'
  end.

(** Runs a call to its end and hands back how it ended, as
    [Promise.all] does with each of its members. *)
Definition settle {A} (m : M A) : M (Result A) := λ w,
  match m w with
  | (r, w') => (Ok r, w')
  end.

Definition liftResult {A} (r : Result A) : M A := λ w, (r, w).

Definition call (e : Event) : M unit := λ w, (Ok tt, set_calls (λ l, l ++ [e]) w).

Definition consoleError (what : string) : M unit := call (ConsoleError what).

Definition getWorld : M World := λ w, (Ok w, w).

Definition modify (f : World → World) : M unit := λ w, (Ok tt, f w).

(** Starting a promise that nobody awaits. *)
Definition detach (t : Task) : M unit := modify (set_pending (λ l, l ++ [t])).

(** [new ObjectId()]. *)
Definition freshObjectId : M N := λ w,
  (Ok (nextObjectId w), set_nextObjectId N.succ w).

(** ** Configuration and environment *)

(** What is fixed when the server starts: the working directory, the
    environment variable read by the Gemini module, and the Node and
    driver built-ins the program relies on. *)
Record Config := {
  uploadDir : string;
  GEMINI_API_KEY : option string;
  path_join : string → string → string;
  path_extname : string → string;
  ObjectId_ofString : string → option N;
}.

(** What the outside world answers to one run of a handler or task.
    [rejects l] tells whether the storage or file-system call written at
    line [l] of the routes module fails; promises of services that the
    program guards with [withTimeout] come with their settling time.
    The nlp module is not among the sources: its three functions are
    taken as they are used, [getTextStatistics] as a call that returns or
    throws, [extractEntities] and [extractKeywordsFromText] as promises.
    [generateContent] is the Gemini model behind both helpers of the
    Gemini module, [generateChatResponse] the OpenAI helper. *)
Record Env := {
  rejects : Z → bool;
  now : Z;
  uniqueSuffix : string;
  pdfParse : Buffer → Promise PdfData;
  getTextStatistics : Text → Result TextStatistics;
  extractEntities : Text → Promise (list Entity);
  extractKeywordsFromText : Text → Promise (list Text);
  generateContent : Text → Promise Text;
  generateChatResponse : Text → Text → list (string * Text) → Result Text;
}.

Local Open Scope Z_scope.

Definition jsLength (t : Text) : Z := Z.of_nat (length t).

(** [text.length > n ? text.substring(0, n) : text]. *)
Definition truncate (n : Z) (text : Text) : Text :=
  if n <? jsLength text then substring0 (Z.to_nat n) text else text.

(** [Promise.all([a, b])] over two calls of the program: both are
    started, and the first failure is the outcome. *)
Definition allOf {A B} (a : M A) (b : M B) : M (A * B) :=
  ra ← settle a;
  rb ← settle b;
  match ra, rb with
  | Ok x, Ok y => mret (x, y)
  | Throw e, _ => throw e
  | _, Throw e => throw e
  end.

(** [Promise.all(l.map(f))]. *)
Fixpoint allOfList {A B} (f : A → M B) (l : list A) : M (list B) :=
  match l with
  | [] => mret []
  | x :: r =>
      rx ← settle (f x);
      rr ← settle (allOfList f r);
      match rx, rr with
      | Ok y, Ok ys => mret (y :: ys)
      | Throw e, _ => throw e
      | _, Throw e => throw e
      end
  end.

(** ** Requests and responses *)

Inductive Body : Type :=
| Message (message : string)
| MessageStatus (message : string) (st : string)
| ExpressError (e : Error)
| DocumentJson (oid : N) (d : Document)
| DocumentWithExtractionsJson (oid : N) (d : Document) (exts : list Extraction) (text : Text)
| ChatMessagesJson (l : list ChatMessage)
| ChatMessageJson (m : ChatMessage).

Record Response := {
  code : Z;
  body : Body;
}.

Definition respond (c : Z) (b : Body) : M Response :=
  mret {| code := c; body := b |}.

(** A file part of a multipart request, before multer has looked at it. *)
Record IncomingFile := {
  in_originalname : string;
  in_mimetype : string;
  in_size : Z;
  in_content : Buffer;
}.

(** [req.file] as multer's disk storage leaves it. *)
Record MulterFile := {
  mf_originalname : string;
  mf_mimetype : string;
  mf_size : Z;
  mf_filename : string;
  mf_path : string;
}.

(** Requests of an authenticated user ([req.user.claims.sub]) to the
    routes that touch one document. *)
Inductive Request : Type :=
| GetDocument (user : string) (id : string)
| Upload (user : string) (file : option IncomingFile)
| DeleteDocument (user : string) (id : string)
| RetryDocument (user : string) (id : string)
| GetChat (user : string) (documentId : string)
| PostChat (user : string) (documentId : string) (content : Text).

(** The order of [sort({ pageNumber: 1 })]. *)
Definition byPageNumber (p q : Page) : Prop := pageNumber p ≤ pageNumber q.

Global Instance byPageNumber_dec : RelDecision byPageNumber.
Proof. intros p q. unfold byPageNumber. apply _. Defined.

Section Model.

Context (cfg : Config).

(** ** The file system *)

Definition existsSync (path : string) : M bool :=
  w ← getWorld; mret (bool_decide (is_Some (disk w !! path))).

Definition readFileSync (fails : bool) (path : string) : M Buffer :=
  call (CallReadFile path);;
  w ← getWorld;
  match disk w !! path with
  | Some buffer => if fails then throw "EACCES" else mret buffer
  | None => throw "ENOENT"
  end.

Definition unlinkSync (fails : bool) (path : string) : M unit :=
  call (CallUnlink path);;
  w ← getWorld;
  match disk w !! path with
  | Some _ => if fails then throw "EPERM" else modify (set_disk (delete path))
  | None => throw "ENOENT"
  end.

(** ** MongoStorage *)

(** [new ObjectId(id)]. *)
Definition newObjectId (id : IdVal) : M N :=
  match id with
  | IdObj o => mret o
  | IdStr s =>
      match ObjectId_ofString cfg s with
      | Some o => mret o
      | None => throw "BSONError"
      end
  end.

(** A driver operation: rejected without effect, or carried out. *)
Definition driver {A} (rejected : bool) (op : M A) : M A :=
  if rejected then throw "MongoError" else op.

(** [find({ userId }).sort({ uploadDate: -1 })]; the program never sets
    [uploadDate], so the order is the collection's. *)
Definition getDocuments (rejected : bool) (user : string)
    : M (list (N * Document)) :=
  driver rejected
    (w ← getWorld;
     mret (filter (λ doc, userId doc.2 = user) (map_to_list (documents w)))).

Definition getDocument (rejected : bool) (id : IdVal)
    : M (option (N * Document)) :=
  oid ← newObjectId id;
  driver rejected (w ← getWorld; mret (pair oid <$> documents w !! oid)).

Definition getExtractions (rejected : bool) (documentId : IdVal) : M (list Extraction) :=
  driver rejected
    (w ← getWorld;
     mret (filter (λ e, ex_documentId e = documentId) (extractions w))).

Definition getPages (rejected : bool) (documentId : IdVal) : M (list Page) :=
  driver rejected
    (w ← getWorld;
     mret (merge_sort byPageNumber
             (filter (λ p, pg_documentId p = documentId) (pages w)))).

Definition getDocumentWithExtractions (rejected : bool) (id : IdVal)
    : M (option (N * Document * list Extraction * Text)) :=
  doc ← getDocument rejected id;
  match doc with
  | None => mret None
  | Some (oid, d) =>
      exts ← getExtractions rejected id;
      pgs ← getPages rejected id;
      mret (Some (oid, d, exts, join (utf16 "

") (map extractedText pgs)))
  end.

(** The fields given to [createDocument] by the upload route. *)
Definition createDocument (rejected : bool) (user name original mime : string)
    (size : Z) (st : string) : M (N * Document) :=
  oid ← freshObjectId;
  let d := {| userId := user; filename := name;
              originalName := original; mimeType := mime; fileSize := size;
              status := st; processingProgress := None;
              processedAt := None; pageCount := None |} in
  call (CallCreateDocument oid d);;
  driver rejected (modify (set_documents (<[oid := d]>));; mret (oid, d)).

Definition updateDocument (rejected : bool) (id : IdVal) (updates : DocUpdate)
    : M (option (N * Document)) :=
  oid ← newObjectId id;
  call (CallUpdateDocument oid updates);;
  driver rejected
    (modify (set_documents (alter (applyUpdate updates) oid));;
     w ← getWorld; mret (pair oid <$> documents w !! oid)).

Definition deleteDocument (rejected : bool) (id : IdVal) : M unit :=
  oid ← newObjectId id;
  call (CallDeleteDocument oid);;
  driver rejected (modify (set_documents (delete oid))).

Definition createPage (rejected : bool) (documentId : IdVal) (number : Z)
    (text : Text) (confidence : Z) : M Page :=
  oid ← freshObjectId;
  let p := {| pg_id := oid; pg_documentId := documentId; pageNumber := number;
              extractedText := text; ocrConfidence := confidence |} in
  call (CallCreatePage p);;
  driver rejected (modify (set_pages (λ l, l ++ [p]));; mret p).

Definition createExtraction (rejected : bool) (documentId : IdVal)
    (type : string) (analysis : DocumentAnalysis) : M Extraction :=
  oid ← freshObjectId;
  let e := {| ex_id := oid; ex_documentId := documentId;
              extractionType := type; data := analysis |} in
  call (CallCreateExtraction e);;
  driver rejected (modify (set_extractions (λ l, l ++ [e]));; mret e).

(** [find({ documentId }).sort({ createdAt: 1 })]; the program never sets
    [createdAt]. *)
Definition getChatMessages (rejected : bool) (documentId : IdVal)
    : M (list ChatMessage) :=
  driver rejected
    (w ← getWorld;
     mret (filter (λ m, cm_documentId m = documentId) (chatMessages w))).

Definition createChatMessage (rejected : bool) (documentId : IdVal)
    (user who : string) (what : Text) : M ChatMessage :=
  oid ← freshObjectId;
  let m := {| cm_id := oid; cm_documentId := documentId; cm_userId := user;
              cm_role := who; cm_content := what |} in
  call (CallCreateChatMessage m);;
  driver rejected (modify (set_chatMessages (λ l, l ++ [m]));; mret m).

(** Modelled from the spec: [storage.getExtraction], which
    [enhanceAnalysisWithAI] calls and the storage class does not define.
    The AI enhancement is a "best-effort follow-up mutation of the
    extraction": this reads the document's extraction of the given type,
    if there is one. *)
Definition getExtraction (rejected : bool) (documentId : IdVal) (type : string)
    : M (option Extraction) :=
  driver rejected
    (w ← getWorld;
     mret (head (filter (λ e, ex_documentId e = documentId ∧ extractionType e = type)
                   (extractions w)))).

Definition setData (oid : N) (analysis : DocumentAnalysis) (e : Extraction) : Extraction :=
  if bool_decide (ex_id e = oid)
  then {| ex_id := ex_id e; ex_documentId := ex_documentId e;
          extractionType := extractionType e; data := analysis |}
  else e.

(** Modelled from the spec: [storage.updateExtraction], missing from the
    storage class like [getExtraction]; it replaces the payload of the
    extraction with the given id. *)
Definition updateExtraction (rejected : bool) (oid : N) (analysis : DocumentAnalysis)
    : M unit :=
  call (CallUpdateExtraction oid analysis);;
  driver rejected (modify (set_extractions (map (setData oid analysis)))).

(** ** Gemini helpers *)

Definition isGeminiConfigured : bool :=
  match GEMINI_API_KEY cfg with
  | Some key => negb (falsy key)
  | None => false
  end.

Definition generateDocumentSummary (env : Env) (text : Text) : Promise Text :=
  generateContent env (utf16 "Summarize the following text:

" ++ text).

Definition extractKeywords (env : Env) (text : Text) : Promise (list Text) :=
  promiseMap (λ response, map trim (splitComma response))
    (generateContent env (utf16 "Extract the most important keywords from the following text. Return them as a comma-separated list:

" ++ text)).

(** ** The pipeline *)

(** [pdfData.text || ""]. *)
Definition textOf (pdfData : PdfData) : Text := default [] (pdf_text pdfData).

(** [numpages || 1]. *)
Definition pageCountOf (pdfData : PdfData) : Z :=
  match numpages pdfData with
  | Some n => if n =? 0 then 1 else n
  | None => 1
  end.

(** The quick summary: the first five sentences longer than 20 code units
    once trimmed. *)
Definition quickSummary (processText : Text) : Text :=
  let sentences :=
    take 5 (filter (λ s, 20 < jsLength (trim s)) (splitSentences processText)) in
  if 0 <? Z.of_nat (length sentences)
  then join (utf16 ". ") sentences ++ utf16 "."
  else utf16 "No summary available.".

(** The lighter NLP tasks under their 10-second timeout, with the
    [.catch(() => [[], []])] that replaces a failure by empty results. *)
Definition lighterNlp (env : Env) (processText : Text) : list Entity * list Text :=
  match withTimeout
          (promiseAll (extractEntities env processText)
                      (extractKeywordsFromText env processText))
          10000 "NLP processing timed out" with
  | Ok found => found
  | Throw _ => ([], [])
  end.

Definition processDocument (env : Env) (documentId : IdVal) (filePath : string)
    : M unit :=
  call (CallProcessDocument documentId filePath);;
  tryCatch
    (updateDocument (rejects env 357) documentId
       {| u_status := Some "processing"; u_processingProgress := Some 10;
          u_processedAt := None; u_pageCount := None |};;
     dataBuffer ← readFileSync (rejects env 360) filePath;
     call (CallPdfParse dataBuffer 30000);;
     pdfData ← liftResult
       (withTimeout (pdfParse env dataBuffer) 30000
          "PDF parsing timed out after 30 seconds");
     let text := textOf pdfData in
     let pageCount := pageCountOf pdfData in
     updateDocument (rejects env 371) documentId
       {| u_status := None; u_processingProgress := Some 25;
          u_processedAt := None; u_pageCount := None |};;
     let maxTextLength := 50000 in
     let processText := truncate maxTextLength text in
     '(_, stats) ← allOf
       (createPage (rejects env 379) documentId 1 text 1)
       (call (CallGetTextStatistics processText);;
        liftResult (getTextStatistics env processText));
     updateDocument (rejects env 387) documentId
       {| u_status := None; u_processingProgress := Some 40;
          u_processedAt := None; u_pageCount := None |};;
     call (CallNlp processText 10000);;
     let '(entities, nlpKeywords) := lighterNlp env processText in
     updateDocument (rejects env 399) documentId
       {| u_status := None; u_processingProgress := Some 60;
          u_processedAt := None; u_pageCount := None |};;
     let analysis :=
       {| summary := quickSummary processText;
          keywords := take 15 nlpKeywords;
          entities := entities;
          tables := [];
          wordCount := st_wordCount stats;
          characterCount := st_characterCount stats |} in
     createExtraction (rejects env 416) documentId "analysis" analysis;;
     updateDocument (rejects env 423) documentId
       {| u_status := Some "completed"; u_processingProgress := Some 100;
          u_processedAt := Some (now env); u_pageCount := Some pageCount |};;
     if isGeminiConfigured
     then call (CallEnhance documentId text);; detach (TEnhance documentId text)
     else mret tt)
    (λ error,
       consoleError "Error processing document:";;
       updateDocument (rejects env 439) documentId
         {| u_status := Some "error"; u_processingProgress := Some (-1);
            u_processedAt := None; u_pageCount := None |};;
       throw error).

(** The [try] block of [enhanceAnalysisWithAI]. *)
Definition enhanceAttempt (env : Env) (documentId : IdVal) (text : Text)
    : M unit :=
  let maxTextLength := 5000 in
  let textForAI := truncate maxTextLength text in
  call (CallGemini textForAI 45000);;
  '(aiSummary, aiKeywords) ← liftResult
    (withTimeout
       (promiseAll (generateDocumentSummary env textForAI)
                   (extractKeywords env textForAI))
       45000 "AI enhancement timed out after 45 seconds");
  existingExtraction ← getExtraction (rejects env 460) documentId "analysis";
  match existingExtraction with
  | Some existing =>
      let analysis := data existing in
      let mergedKeywords := uniq (aiKeywords ++ keywords analysis) in
      updateExtraction (rejects env 467) (ex_id existing)
        {| summary := aiSummary;
           keywords := take 15 mergedKeywords;
           entities := entities analysis;
           tables := tables analysis;
           wordCount := wordCount analysis;
           characterCount := characterCount analysis |}
  | None => mret tt
  end.

Definition enhanceAnalysisWithAI (env : Env) (documentId : IdVal) (text : Text)
    : M unit :=
  tryCatch (enhanceAttempt env documentId text)
    (λ error, consoleError "AI enhancement failed:").

(** ** Upload middleware *)

Definition fileFilter (mimetype : string) : Result bool :=
  if bool_decide (mimetype = "application/pdf") then Ok true
  else Throw "Only PDF files are allowed".

Definition fileSizeLimit : Z := 100 * 1024 * 1024.

(** [upload.single("file")]: multer asks [fileFilter] first, then stores
    the file under a generated name unless it is larger than
    [limits.fileSize]; an error of either kind goes to Express and the
    route handler does not run. *)
Definition uploadSingle (env : Env) (file : option IncomingFile)
    : M (option MulterFile) :=
  match file with
  | None => mret None
  | Some f =>
      accepted ← liftResult (fileFilter (in_mimetype f));
      if negb accepted then mret None
      else if fileSizeLimit <? in_size f then throw "File too large"
      else
        let name := uniqueSuffix env +:+ path_extname cfg (in_originalname f) in
        let path := path_join cfg (uploadDir cfg) name in
        modify (set_disk (<[path := in_content f]>));;
        mret (Some {| mf_originalname := in_originalname f;
                      mf_mimetype := in_mimetype f;
                      mf_size := in_size f;
                      mf_filename := name;
                      mf_path := path |})
  end.

(** ** Route handlers *)

Definition getDocumentRoute (env : Env) (user : string) (docId : string)
    : M Response :=
  tryCatch
    (if falsy docId || bool_decide (docId = "undefined")
        || bool_decide (docId = "null")
     then respond 400 (Message "Invalid document ID")
     else
       doc ← getDocumentWithExtractions (rejects env 104) (IdStr docId);
       match doc with
       | None => respond 404 (Message "Document not found")
       | Some (oid, d, exts, text) =>
           if bool_decide (userId d ≠ user)
           then respond 403 (Message "Access denied")
           else respond 200 (DocumentWithExtractionsJson oid d exts text)
       end)
    (λ error,
       consoleError "Error fetching document:";;
       respond 500 (Message "Failed to fetch document")).

Definition uploadRoute (env : Env) (user : string) (reqFile : option MulterFile)
    : M Response :=
  tryCatch
    (match reqFile with
     | None => respond 400 (Message "No file uploaded")
     | Some file =>
         doc ← createDocument (rejects env 132) user (mf_filename file)
                 (mf_originalname file) (mf_mimetype file) (mf_size file)
                 "processing";
         detach (TProcessUpload (IdObj doc.1) (mf_path file));;
         respond 200 (DocumentJson doc.1 doc.2)
     end)
    (λ error,
       consoleError "Error uploading document:";;
       respond 500 (Message "Failed to upload document")).

Definition deleteDocumentRoute (env : Env) (user : string) (id : string)
    : M Response :=
  tryCatch
    (doc ← getDocument (rejects env 156) (IdStr id);
     match doc with
     | None => respond 404 (Message "Document not found")
     | Some (oid, d) =>
         if bool_decide (userId d ≠ user)
         then respond 403 (Message "Access denied")
         else
           let filePath := path_join cfg (uploadDir cfg) (filename d) in
           present ← existsSync filePath;
           (if (present : bool) then unlinkSync (rejects env 168) filePath else mret tt);;
           deleteDocument (rejects env 171) (IdStr id);;
           respond 200 (Message "Document deleted")
     end)
    (λ error,
       consoleError "Error deleting document:";;
       respond 500 (Message "Failed to delete document")).

Definition retryDocumentRoute (env : Env) (user : string) (id : string)
    : M Response :=
  tryCatch
    (doc ← getDocument (rejects env 182) (IdStr id);
     match doc with
     | None => respond 404 (Message "Document not found")
     | Some (oid, d) =>
         if bool_decide (userId d ≠ user)
         then respond 403 (Message "Access denied")
         else
           let filePath := path_join cfg (uploadDir cfg) (filename d) in
           present ← existsSync filePath;
           if negb present
           then respond 404 (Message "Document file not found")
           else
             updateDocument (rejects env 198) (IdStr id)
               {| u_status := Some "processing"; u_processingProgress := Some 0;
                  u_processedAt := None; u_pageCount := None |};;
             detach (TProcessRetry (IdObj oid) filePath);;
             respond 200 (MessageStatus "Document reprocessing started" "processing")
     end)
    (λ error,
       consoleError "Error retrying document:";;
       respond 500 (Message "Failed to retry document")).

Definition getChatRoute (env : Env) (user : string) (documentId : string)
    : M Response :=
  tryCatch
    (doc ← getDocument (rejects env 216) (IdStr documentId);
     match doc with
     | None => respond 404 (Message "Document not found")
     | Some (oid, d) =>
         if bool_decide (userId d ≠ user)
         then respond 403 (Message "Access denied")
         else
           messages ← getChatMessages (rejects env 225) (IdStr documentId);
           respond 200 (ChatMessagesJson messages)
     end)
    (λ error,
       consoleError "Error fetching chat messages:";;
       respond 500 (Message "Failed to fetch chat messages")).

(** [l.slice(-n)]. *)
Definition lastN {A} (n : nat) (l : list A) : list A := drop (length l - n)%nat l.

Definition postChatRoute (env : Env) (user : string) (documentId : string)
    (content : Text) : M Response :=
  tryCatch
    (if falsy documentId || bool_decide (content = [])
     then respond 400 (Message "Missing documentId or content")
     else
       doc ← getDocumentWithExtractions (rejects env 242) (IdStr documentId);
       match doc with
       | None => respond 404 (Message "Document not found")
       | Some (_, d, _, extractedText) =>
           if bool_decide (userId d ≠ user)
           then respond 403 (Message "Access denied")
           else
             createChatMessage (rejects env 252) (IdStr documentId) user "user" content;;
             chatHistory ← getChatMessages (rejects env 260) (IdStr documentId);
             let historyForAI :=
               map (λ m, (cm_role m, cm_content m)) (lastN 10 chatHistory) in
             aiResponse ← tryCatch
               (liftResult
                  (generateChatResponse env
                     (if bool_decide (extractedText = [])
                      then utf16 "No text extracted from document."
                      else extractedText)
                     content historyForAI))
               (λ aiError,
                  consoleError "AI error:";;
                  mret (utf16 "I'm sorry, I couldn't process your question. Please try again."));
             assistantMessage ← createChatMessage (rejects env 280)
                                  (IdStr documentId) user "assistant" aiResponse;
             respond 200 (ChatMessageJson assistantMessage)
       end)
    (λ error,
       consoleError "Error sending chat message:";;
       respond 500 (Message "Failed to send message")).

(** A request through Express: the upload route sits behind multer, whose
    errors are answered by Express' own error handler. *)
Definition handle (env : Env) (req : Request) : M Response :=
  match req with
  | GetDocument user id => getDocumentRoute env user id
  | Upload user file =>
      stored ← settle (uploadSingle env file);
      match stored with
      | Ok reqFile => uploadRoute env user reqFile
      | Throw e => respond 500 (ExpressError e)
      end
  | DeleteDocument user id => deleteDocumentRoute env user id
  | RetryDocument user id => retryDocumentRoute env user id
  | GetChat user documentId => getChatRoute env user documentId
  | PostChat user documentId content => postChatRoute env user documentId content
  end.

(** ** The startup sweep *)

Definition mockUserId : string := "mock-user-id-123".

(** What the sweep does with one stuck document; [envOf] gives the
    environment of the pipeline run of each document. *)
Definition reprocess (envOf : N → Env) (doc : N * Document) : M unit :=
  let filePath := path_join cfg (uploadDir cfg) (filename doc.2) in
  present ← existsSync filePath;
  if (present : bool)
  then processDocument (envOf doc.1) (IdObj doc.1) filePath
  else
    updateDocument (rejects (envOf doc.1) 326) (IdObj doc.1)
      {| u_status := Some "error"; u_processingProgress := None;
         u_processedAt := None; u_pageCount := None |};;
    mret tt.

Definition stuckDocuments (docs : list (N * Document)) : list (N * Document) :=
  filter (λ doc, status doc.2 = "processing") docs.

Definition startupSweep (env : Env) (envOf : N → Env) : M unit :=
  tryCatch
    (docs ← getDocuments (rejects env 313) mockUserId;
     let stuck := stuckDocuments docs in
     if 0 <? Z.of_nat (length stuck)
     then allOfList (reprocess envOf) stuck;; mret tt
     else mret tt)
    (λ error,
       consoleError "Error during startup reprocessing of stuck documents:").

(** ** Detached promises *)

(** What a detached promise does when the event loop runs it, with the
    [.catch] handler given where it was started.  A promise is run to its
    end in one go: of the interleavings of concurrent runs, the model has
    those that do not split a run. *)
Definition runTask (env : Env) (envOf : N → Env) (t : Task) : M unit :=
  match t with
  | TProcessUpload documentId filePath =>
      tryCatch (processDocument env documentId filePath)
        (λ error,
           consoleError "Error processing document:";;
           settle (updateDocument (rejects env 144) documentId
             {| u_status := Some "error"; u_processingProgress := None;
                u_processedAt := None; u_pageCount := None |});;
           mret tt)
  | TProcessRetry documentId filePath =>
      tryCatch (processDocument env documentId filePath)
        (λ error,
           consoleError "Error reprocessing document:";;
           settle (updateDocument (rejects env 203) documentId
             {| u_status := Some "error"; u_processingProgress := Some (-1);
                u_processedAt := None; u_pageCount := None |});;
           mret tt)
  | TEnhance documentId text =>
      tryCatch (enhanceAnalysisWithAI env documentId text)
        (λ error, consoleError "AI enhancement failed for document")
  | TStartupSweep => startupSweep env envOf
  end.

(** One step of the server: it answers a request, or the event loop runs
    one of the detached promises.  The routes left out (current user,
    dashboard, document list, reports) only read. *)
Inductive Step (w : World) : World → Prop :=
| StepRequest (env : Env) (req : Request) :
    Step w (handle env req w).2
| StepTask (env : Env) (envOf : N → Env) (t : Task) (before after : list Task) :
    pending w = before ++ t :: after →
    Step w (runTask env envOf t (set_pending (λ _, before ++ after) w)).2.

(** The server starts with the sweep as its only promise and an empty
    call log. *)
Definition boot (w : World) : World :=
  set_calls (λ _, []) (set_pending (λ _, [TStartupSweep]) w).

Definition Reachable (w0 w : World) : Prop := rtc Step (boot w0) w.

End Model.

(** ** Runs of the pipeline *)

(** The lines of [processDocument] that call the storage or the file
    system before the document is marked completed, that line included. *)
Definition pipelineLines : list Z := [357; 360; 371; 379; 387; 399; 416; 423].



(** The same environment with another Gemini service. *)
Definition withGemini (g : Text → Promise Text) (env : Env) : Env :=
  {| rejects := rejects env; now := now env; uniqueSuffix := uniqueSuffix env;
     pdfParse := pdfParse env; getTextStatistics := getTextStatistics env;
     extractEntities := extractEntities env;
     extractKeywordsFromText := extractKeywordsFromText env;
     generateContent := g;
     generateChatResponse := generateChatResponse env |}.

(** The documents the sweep works on, given the collection it finds. *)
Definition sweptDocuments (w : World) : list (N * Document) :=
  stuckDocuments
    (filter (λ doc, userId doc.2 = mockUserId) (map_to_list (documents w))).

(** No run of the pipeline on document [oid] has been started between
    [w0] and [w]. *)
Definition notRestarted (oid : N) (w0 w : World) : Prop :=
  ∃ new, calls w = calls w0 ++ new
         ∧ ∀ path, CallProcessDocument (IdObj oid) path ∉ new.

(** ** Requests about one document *)

(** The requester and the document id of a request to one of the
    per-document routes. *)
Definition documentRequest (req : Request) : option (string * string) :=
  match req with
  | GetDocument user id => Some (user, id)
  | DeleteDocument user id => Some (user, id)
  | RetryDocument user id => Some (user, id)
  | GetChat user documentId => Some (user, documentId)
  | PostChat user documentId _ => Some (user, documentId)
  | Upload _ _ => None
  end.

(** Whether a request gets past the checks a route makes on its input
    before it looks the document up. *)
Definition passesValidation (req : Request) : bool :=
  match req with
  | GetDocument _ id =>
      negb (falsy id || bool_decide (id = "undefined") || bool_decide (id = "null"))
  | PostChat _ documentId content =>
      negb (falsy documentId || bool_decide (content = []))
  | _ => true
  end.

(** The line at which a route looks the document up. *)
Definition lookupLine (req : Request) : Z :=
  match req with
  | GetDocument _ _ => 104
  | DeleteDocument _ _ => 156
  | RetryDocument _ _ => 182
  | GetChat _ _ => 216
  | PostChat _ _ _ => 242
  | Upload _ _ => 132
  end.

(** ** Properties of writes and of stored records *)

Definition statusValues : list string := ["processing"; "completed"; "error"].

Definition progressValues : list Z := [-1; 0; 10; 25; 40; 60; 100].

Definition validStatus (s : string) : Prop := s ∈ statusValues.

Definition validProgress (p : Z) : Prop := p ∈ progressValues.

(** An update is valid when the fields it sets are. *)
Definition validUpdate (u : DocUpdate) : Prop :=
  from_option validStatus True (u_status u)
  ∧ from_option validProgress True (u_processingProgress u).

Definition validDocument (d : Document) : Prop :=
  validStatus (status d)
  ∧ from_option validProgress True (processingProgress d).

Definition validDocumentWrite (e : Event) : Prop :=
  match e with
  | CallCreateDocument _ d => validDocument d
  | CallUpdateDocument _ u => validUpdate u
  | _ => True
  end.

Definition boundedKeywords (a : DocumentAnalysis) : Prop :=
  (length (keywords a) ≤ 15)%nat.

Definition boundedExtractionWrite (e : Event) : Prop :=
  match e with
  | CallCreateExtraction x => boundedKeywords (data x)
  | CallUpdateExtraction _ a => boundedKeywords a
  | _ => True
  end.

Definition goodCall (e : Event) : Prop :=
  validDocumentWrite e ∧ boundedExtractionWrite e.

(** ** Invariants of programs *)

Definition stable (I : World → Prop) (f : World → World) : Prop :=
  ∀ w, I w → I (f w).

Definition preserves {A} (I : World → Prop) (m : M A) : Prop :=
  ∀ w, I w → I (m w).2.

(** An invariant that every write the program can make respects. *)
Record Respects (I : World → Prop) : Prop := {
  resp_call e : goodCall e → stable I (set_calls (λ l, l ++ [e]));
  resp_doc_insert oid d :
    validDocument d → stable I (set_documents (<[oid := d]>));
  resp_doc_alter oid u :
    validUpdate u → stable I (set_documents (alter (applyUpdate u) oid));
  resp_doc_delete oid : stable I (set_documents (delete oid));
  resp_pages f : stable I (set_pages f);
  resp_ext_add x :
    boundedKeywords (data x) → stable I (set_extractions (λ l, l ++ [x]));
  resp_ext_set oid a :
    boundedKeywords a → stable I (set_extractions (map (setData oid a)));
  resp_chat f : stable I (set_chatMessages f);
  resp_disk f : stable I (set_disk f);
  resp_next f : stable I (set_nextObjectId f);
  resp_pending f : stable I (set_pending f);
}.

(** ** Routes and storage methods beside the pipeline *)

(** What a route answers when its body is not one of [Body]: the JSON of
    a value, or a status code with a message. *)
Inductive Answer (A : Type) : Type :=
| Json (a : A)
| Failure (status : Z) (message : string).
Arguments Json {A} a.
Arguments Failure {A} status message.

Record DashboardStats := {
  totalDocuments : nat;
  processingCount : nat;
  completedCount : nat;
  errorCount : nat;
  recentDocuments : list (N * Document);
}.

(** [allDocs.filter(d => d.status === s).length]. *)
Definition countStatus (s : string) (docs : list (N * Document)) : nat :=
  length (filter (λ doc, status doc.2 = s) docs).

Definition getDashboardStats (rejected : bool) (user : string) : M DashboardStats :=
  allDocs ← getDocuments rejected user;
  let recent := take 5 allDocs in
  mret {| totalDocuments := length allDocs;
          processingCount := countStatus "processing" allDocs;
          completedCount := countStatus "completed" allDocs;
          errorCount := countStatus "error" allDocs;
          recentDocuments := recent |}.

(** [find({ userId, originalName: { $regex: query, $options: 'i' } })].
    The regular-expression engine is the database's: [regex query] is the
    matcher of a pattern, or nothing for a pattern the database refuses. *)
Definition searchDocuments (regex : string → option (string → bool))
    (rejected : bool) (user : string) (query : string)
    : M (list (N * Document)) :=
  driver rejected
    (match regex query with
     | None => throw "MongoServerError"
     | Some matches =>
         w ← getWorld;
         mret (filter (λ doc, userId doc.2 = user ∧ matches (originalName doc.2) = true)
                 (map_to_list (documents w)))
     end).

(** [GET /api/dashboard/stats]. *)
Definition dashboardStatsRoute (env : Env) (user : string)
    : M (Answer DashboardStats) :=
  tryCatch
    (stats ← getDashboardStats (rejects env 70) user;
     mret (Json stats))
    (λ error,
       consoleError "Error fetching dashboard stats:";;
       mret (Failure 500 "Failed to fetch dashboard stats")).

(** [GET /api/documents], with the optional [q] of the query string. *)
Definition listDocumentsRoute (regex : string → option (string → bool))
    (env : Env) (user : string) (q : option string)
    : M (Answer (list (N * Document))) :=
  tryCatch
    (docs ← match q with
            | Some query =>
                if falsy query then getDocuments (rejects env 86) user
                else searchDocuments regex (rejects env 85) user query
            | None => getDocuments (rejects env 86) user
            end;
     mret (Json docs))
    (λ error,
       consoleError "Error fetching documents:";;
       mret (Failure 500 "Failed to fetch documents")).

(** ** Observations on runs *)

(** The progress values of the document updates in a call log. *)
Definition progressWrites (l : list Event) : list Z :=
  omap (λ e, match e with
             | CallUpdateDocument _ u => u_processingProgress u
             | _ => None
             end) l.

(** The calls a program added to the log of [w]. *)
Definition newCalls (w w' : World) : list Event :=
  drop (length (calls w)) (calls w').

(** A program that returns, when it returns, a value with property [P]. *)
Definition returns {A} (P : A → Prop) (m : M A) : Prop :=
  ∀ w, match (m w).1 with Ok a => P a | Throw _ => True end.

(** A program that always returns, and a value with property [P]. *)
Definition answers {A} (P : A → Prop) (m : M A) : Prop :=
  ∀ w, ∃ a, (m w).1 = Ok a ∧ P a.

Definition isObjectId (id : IdVal) : Prop :=
  match id with IdObj _ => True | IdStr _ => False end.

Definition taskOnObjectId (t : Task) : Prop :=
  match t with
  | TProcessUpload id _ | TProcessRetry id _ | TEnhance id _ => isObjectId id
  | TStartupSweep => True
  end.

(** Pages and extractions refer to their document by its ObjectId, and so
    do the detached promises. *)
Definition refersByObjectId (w : World) : Prop :=
  Forall (λ p, isObjectId (pg_documentId p)) (pages w)
  ∧ Forall (λ x, isObjectId (ex_documentId x)) (extractions w)
  ∧ Forall taskOnObjectId (pending w).

(** Two worlds with the same collections, files, detached promises and
    ObjectId supply: they differ at most in the call log. *)
Definition sameData (w w' : World) : Prop :=
  documents w' = documents w
  ∧ pages w' = pages w
  ∧ extractions w' = extractions w
  ∧ chatMessages w' = chatMessages w
  ∧ disk w' = disk w
  ∧ pending w' = pending w
  ∧ nextObjectId w' = nextObjectId w.


(** Two records of the same upload: the owner and the file are the same,
    the processing state may differ. *)
Definition sameUpload (d d' : Document) : Prop :=
  userId d' = userId d
  ∧ filename d' = filename d
  ∧ originalName d' = originalName d
  ∧ mimeType d' = mimeType d
  ∧ fileSize d' = fileSize d.

(** The line of the error write in the [.catch] given to a detached run of
    the pipeline. *)
Definition catchLine (t : Task) : Z :=
  match t with
  | TProcessUpload _ _ => 144
  | _ => 203
  end.

(** The detached runs of the pipeline on a document and a file. *)
Definition pipelineTask (t : Task) (oid : N) (path : string) : Prop :=
  t = TProcessUpload (IdObj oid) path ∨ t = TProcessRetry (IdObj oid) path.

(** The text of a document as [getDocumentWithExtractions] puts it
    together from the pages stored under [id]. *)
Definition storedText (id : IdVal) (w : World) : Text :=
  join (utf16 "

") (map extractedText
       (merge_sort byPageNumber (filter (λ p, pg_documentId p = id) (pages w)))).

(** The reply stored when the AI fails. *)
Definition apology : Text :=
  utf16 "I'm sorry, I couldn't process your question. Please try again.".

(** The calls that only the AI enhancement makes, and the detached
    promises that run it. *)
Definition enhancementCall (e : Event) : Prop :=
  match e with
  | CallGemini _ _ | CallEnhance _ _ | CallUpdateExtraction _ _ => True
  | _ => False
  end.

Definition enhancementTask (t : Task) : Prop :=
  match t with
  | TEnhance _ _ => True
  | _ => False
  end.

(** A server on which the AI enhancement has not been started, and whose
    extractions are those of [w0] followed by new ones. *)
Definition withoutEnhancement (w0 w : World) : Prop :=
  Forall (λ e, ¬ enhancementCall e) (calls w)
  ∧ Forall (λ t, ¬ enhancementTask t) (pending w)
  ∧ extractions w0 `prefix_of` extractions w.
(** ** A small installation, for examples *)

Definition hexDigit (a : ascii) : option N :=
  let n := N_of_ascii a in
  if ((48 <=? n) && (n <=? 57))%N then Some (n - 48)%N
  else if ((97 <=? n) && (n <=? 102))%N then Some (n - 87)%N
  else if ((65 <=? n) && (n <=? 70))%N then Some (n - 55)%N
  else None.

Fixpoint hexValue (acc : N) (digits : list ascii) : option N :=
  match digits with
  | [] => Some acc
  | a :: r =>
      match hexDigit a with
      | Some d => hexValue (16 * acc + d)%N r
      | None => None
      end
  end.

(** A driver that takes the strings of 24 hexadecimal digits for
    ObjectIds. *)
Definition hex24 (s : string) : option N :=
  if (String.length s =? 24)%nat
  then hexValue 0%N (list_ascii_of_string s)
  else None.

(** The part of a name from its last dot on. *)
Fixpoint lastDotSuffix (s : string) (found : string) : string :=
  match s with
  | EmptyString => found
  | String c r =>
      if Ascii.eqb c "."%char then lastDotSuffix r (String c r)
      else lastDotSuffix r found
  end.

Definition demoCfg : Config :=
  {| uploadDir := "/srv/app/uploads";
     GEMINI_API_KEY := Some "key";
     path_join := λ a b, a +:+ "/" +:+ b;
     path_extname := λ name, lastDotSuffix name "";
     ObjectId_ofString := hex24 |}.

Definition demoText : Text :=
  utf16 "The quick brown fox jumps over the lazy dog. Short. Another sentence that is long enough to count!".

Definition demoPdf : PdfData :=
  {| pdf_text := Some demoText; numpages := Some 2 |}.

Definition demoStats : TextStatistics :=
  {| st_wordCount := 18; st_characterCount := 98 |}.

(** An environment in which every service answers in time and no call
    fails. *)
Definition demoEnv : Env :=
  {| rejects := λ _, false;
     now := 1700000000000;
     uniqueSuffix := "1700000000000-42";
     pdfParse := λ _, Fulfills 120 demoPdf;
     getTextStatistics := λ _, Ok demoStats;
     extractEntities := λ _, Fulfills 5 [utf16 "fox"];
     extractKeywordsFromText := λ _, Fulfills 7 [utf16 "quick"; utf16 "lazy"];
     generateContent := λ _, Fulfills 900 (utf16 "lazy , dog,quick");
     generateChatResponse := λ _ _ _, Ok (utf16 "It is about a fox.") |}.

(** The same, but the lighter NLP never answers. *)
Definition demoEnvNlpDown : Env :=
  {| rejects := rejects demoEnv; now := now demoEnv;
     uniqueSuffix := uniqueSuffix demoEnv;
     pdfParse := pdfParse demoEnv;
     getTextStatistics := getTextStatistics demoEnv;
     extractEntities := λ _, NeverSettles;
     extractKeywordsFromText := extractKeywordsFromText demoEnv;
     generateContent := generateContent demoEnv;
     generateChatResponse := generateChatResponse demoEnv |}.


(** A parser that finds a text of 50001 code units. *)
Definition longText : Text := replicate (Z.to_nat 50001) 97%N.

Definition longPdf : PdfData :=
  {| pdf_text := Some longText; numpages := Some 40 |}.

Definition demoEnvLong : Env :=
  {| rejects := rejects demoEnv; now := now demoEnv;
     uniqueSuffix := uniqueSuffix demoEnv;
     pdfParse := λ _, Fulfills 2500 longPdf;
     getTextStatistics := λ _, Ok demoStats;
     extractEntities := extractEntities demoEnv;
     extractKeywordsFromText := extractKeywordsFromText demoEnv;
     generateContent := generateContent demoEnv;
     generateChatResponse := generateChatResponse demoEnv |}.

Definition mockDoc : Document :=
  {| userId := "mock-user-id-123"; filename := "report.pdf";
     originalName := "Report.pdf"; mimeType := "application/pdf";
     fileSize := 4; status := "processing"; processingProgress := Some 10;
     processedAt := None; pageCount := None |}.

Definition aliceDoc : Document :=
  {| userId := "alice"; filename := "alice.pdf";
     originalName := "Thesis.pdf"; mimeType := "application/pdf";
     fileSize := 4; status := "processing"; processingProgress := Some 25;
     processedAt := None; pageCount := None |}.

Definition demoBuffer : Buffer := [37; 80; 68; 70]%N.

Definition mockPath : string := "/srv/app/uploads/report.pdf".

Definition alicePath : string := "/srv/app/uploads/alice.pdf".

Definition aliceId : string := "000000000000000000000002".

(** Two stuck documents, of the mock user and of Alice, with their files. *)
Definition demoWorld : World :=
  {| documents := {[ 1%N := mockDoc; 2%N := aliceDoc ]};
     pages := []; extractions := []; chatMessages := [];
     disk := {[ mockPath := demoBuffer; alicePath := demoBuffer ]};
     nextObjectId := 3; pending := []; calls := [] |}.

(** Only Alice's stuck document, with its file. *)
Definition aliceWorld : World :=
  {| documents := {[ 2%N := aliceDoc ]};
     pages := []; extractions := []; chatMessages := [];
     disk := {[ alicePath := demoBuffer ]};
     nextObjectId := 3; pending := []; calls := [] |}.


Definition demoFile : IncomingFile :=
  {| in_originalname := "Report.pdf"; in_mimetype := "application/pdf";
     in_size := 104857600; in_content := demoBuffer |}.

Definition demoUploadPath : string := "/srv/app/uploads/1700000000000-42.pdf".

(** The server after Bob's upload, after the pipeline run that the upload
    detached, and after the AI enhancement that the run detached. *)
Definition demoUploaded : World :=
  (handle demoCfg demoEnv (Upload "bob" (Some demoFile)) (boot demoWorld)).2.

Definition demoProcessed : World :=
  (runTask demoCfg demoEnv (λ _, demoEnv)
     (TProcessUpload (IdObj 3) demoUploadPath)
     (set_pending (λ _, [TStartupSweep] ++ []) demoUploaded)).2.

Definition demoEnhanced : World :=
  (runTask demoCfg demoEnv (λ _, demoEnv)
     (TEnhance (IdObj 3) demoText)
     (set_pending (λ _, [TStartupSweep] ++ []) demoProcessed)).2.

(** ** More of the small installation *)

(** The id string of the document that Bob's upload creates. *)
Definition bobId : string := "000000000000000000000003".

Definition demoQuestion : Text := utf16 "What is it about?".

(** Fifteen keywords, all different. *)
Definition fifteenKeywords : list Text := (λ n, [N.of_nat n]) <$> seq 0 15.

(** The same installation without a Gemini key, after Bob's upload and
    after the pipeline run that the upload detached. *)
Definition demoCfgNoKey : Config :=
  {| uploadDir := uploadDir demoCfg; GEMINI_API_KEY := None;
     path_join := path_join demoCfg; path_extname := path_extname demoCfg;
     ObjectId_ofString := ObjectId_ofString demoCfg |}.

Definition demoUploadedNoKey : World :=
  (handle demoCfgNoKey demoEnv (Upload "bob" (Some demoFile)) (boot demoWorld)).2.

Definition demoProcessedNoKey : World :=
  (runTask demoCfgNoKey demoEnv (λ _, demoEnv)
     (TProcessUpload (IdObj 3) demoUploadPath)
     (set_pending (λ _, [TStartupSweep] ++ []) demoUploadedNoKey)).2.

(** A database that takes every pattern and matches it as a prefix,
    letter case apart from the pattern's own. *)
Definition demoRegex (query : string) : option (string → bool) :=
  Some (String.prefix query).

(** The demo environment, but files cannot be unlinked. *)
Definition demoEnvUnlinkDown : Env :=
  {| rejects := λ l, bool_decide (l = 168); now := now demoEnv;
     uniqueSuffix := uniqueSuffix demoEnv;
     pdfParse := pdfParse demoEnv;
     getTextStatistics := getTextStatistics demoEnv;
     extractEntities := extractEntities demoEnv;
     extractKeywordsFromText := extractKeywordsFromText demoEnv;
     generateContent := generateContent demoEnv;
     generateChatResponse := generateChatResponse demoEnv |}.

(** * Verification *)

(** ** Rules for invariants *)

Section Rules.

Context (I : World → Prop).

Lemma preserves_mret {A} (a : A) : preserves I (mret a).
Proof. intros w Hw. exact Hw. Qed.

Lemma preserves_throw {A} (e : Error) : preserves I (@throw A e).
Proof. intros w Hw. exact Hw. Qed.

Lemma preserves_liftResult {A} (r : Result A) : preserves I (liftResult r).
Proof. intros w Hw. exact Hw. Qed.

Lemma preserves_getWorld : preserves I getWorld.
Proof. intros w Hw. exact Hw. Qed.

Lemma preserves_bind {A B} (m : M A) (k : A → M B) :
  preserves I m → (∀ a, preserves I (k a)) → preserves I (m ≫= k).
Proof.
  intros Hm Hk w Hw. unfold mbind, M_bind.
  specialize (Hm w Hw). destruct (m w) as [[a|e] w']; simpl in *.
  - apply Hk, Hm.
  - exact Hm.
Qed.

Lemma preserves_tryCatch {A} (body : M A) (handler : Error → M A) :
  preserves I body → (∀ e, preserves I (handler e)) →
  preserves I (tryCatch body handler).
Proof.
  intros Hb Hh w Hw. unfold tryCatch.
  specialize (Hb w Hw). destruct (body w) as [[a|e] w']; simpl in *.
  - exact Hb.
  - apply Hh, Hb.
Qed.

Lemma preserves_settle {A} (m : M A) : preserves I m → preserves I (settle m).
Proof.
  intros Hm w Hw. unfold settle. specialize (Hm w Hw).
  destruct (m w) as [r w']. exact Hm.
Qed.

Lemma preserves_modify (f : World → World) : stable I f → preserves I (modify f).
Proof. intros Hf w Hw. apply Hf, Hw. Qed.

Lemma preserves_call (e : Event) :
  stable I (set_calls (λ l, l ++ [e])) → preserves I (call e).
Proof. intros Hf w Hw. apply Hf, Hw. Qed.

Lemma preserves_detach (t : Task) :
  stable I (set_pending (λ l, l ++ [t])) → preserves I (detach t).
Proof. intros Hf w Hw. apply Hf, Hw. Qed.

Lemma preserves_freshObjectId :
  stable I (set_nextObjectId N.succ) → preserves I freshObjectId.
Proof. intros Hf w Hw. apply Hf, Hw. Qed.

Lemma preserves_allOf {A B} (a : M A) (b : M B) :
  preserves I a → preserves I b → preserves I (allOf a b).
Proof.
  intros Ha Hb. unfold allOf.
  apply preserves_bind; [by apply preserves_settle|]. intros ra.
  apply preserves_bind; [by apply preserves_settle|]. intros rb.
  destruct ra, rb; first [apply preserves_mret | apply preserves_throw].
Qed.

Lemma preserves_allOfList {A B} (f : A → M B) (l : list A) :
  (∀ x, x ∈ l → preserves I (f x)) → preserves I (allOfList f l).
Proof.
  induction l as [|x r IH]; intros Hf; simpl.
  - apply preserves_mret.
  - apply preserves_bind.
    { apply preserves_settle, Hf. by left. }
    intros rx. apply preserves_bind.
    { apply preserves_settle, IH. intros y Hy. apply Hf. by right. }
    intros rr. destruct rx, rr; first [apply preserves_mret | apply preserves_throw].
Qed.

End Rules.

(** One step of a proof that a program keeps an invariant: down to the
    writes it makes. *)
Ltac inv_step :=
  match goal with
  | |- preserves _ (mret _) => apply preserves_mret
  | |- preserves _ (throw _) => apply preserves_throw
  | |- preserves _ (liftResult _) => apply preserves_liftResult
  | |- preserves _ getWorld => apply preserves_getWorld
  | |- preserves _ (respond _ _) => apply preserves_mret
  | |- preserves _ (mbind _ _) => apply preserves_bind; [|intros ?]
  | |- preserves _ (tryCatch _ _) => apply preserves_tryCatch; [|intros ?]
  | |- preserves _ (settle _) => apply preserves_settle
  | |- preserves _ (allOf _ _) => apply preserves_allOf
  | |- preserves _ (modify _) => apply preserves_modify
  | |- preserves _ (call _) => apply preserves_call
  | |- preserves _ (consoleError _) => apply preserves_call
  | |- preserves _ (detach _) => apply preserves_detach
  | |- preserves _ freshObjectId => apply preserves_freshObjectId
  | |- preserves _ (driver ?r _) => unfold driver; destruct r
  | |- preserves _ (if ?b then _ else _) => destruct b eqn:?
  | |- preserves _ (match ?x with _ => _ end) => destruct x eqn:?
  end.

Ltac inv_steps := cbv zeta; repeat inv_step.

Ltac solve_valid :=
  repeat split; simpl;
  try solve [ exact I
            | unfold validStatus, statusValues, validProgress, progressValues;
              set_solver
            | unfold boundedKeywords; simpl; rewrite length_take; lia
            | assumption ].

(** ** Every program keeps every respected invariant *)

Section Programs.

Context (cfg : Config) (I : World → Prop) (HI : Respects I).

Ltac leaf :=
  first [ apply (resp_call I HI); solve_valid
        | apply (resp_doc_insert I HI); solve_valid
        | apply (resp_doc_alter I HI); solve_valid
        | apply (resp_doc_delete I HI)
        | apply (resp_pages I HI)
        | apply (resp_ext_add I HI); solve_valid
        | apply (resp_ext_set I HI); solve_valid
        | apply (resp_chat I HI)
        | apply (resp_disk I HI)
        | apply (resp_next I HI)
        | apply (resp_pending I HI) ].

Lemma existsSync_respects path : preserves I (existsSync path).
Proof. unfold existsSync. inv_steps. Qed.

Lemma readFileSync_respects fails path : preserves I (readFileSync fails path).
Proof. unfold readFileSync. inv_steps; leaf. Qed.

Lemma unlinkSync_respects fails path : preserves I (unlinkSync fails path).
Proof. unfold unlinkSync. inv_steps; leaf. Qed.

Lemma newObjectId_respects id : preserves I (newObjectId cfg id).
Proof. unfold newObjectId. inv_steps. Qed.

Lemma getDocuments_respects r user : preserves I (getDocuments r user).
Proof. unfold getDocuments. inv_steps. Qed.

Lemma getDocument_respects r id : preserves I (getDocument cfg r id).
Proof. unfold getDocument. inv_steps; apply newObjectId_respects. Qed.

Lemma getExtractions_respects r id : preserves I (getExtractions r id).
Proof. unfold getExtractions. inv_steps. Qed.

Lemma getPages_respects r id : preserves I (getPages r id).
Proof. unfold getPages. inv_steps. Qed.

Lemma getDocumentWithExtractions_respects r id :
  preserves I (getDocumentWithExtractions cfg r id).
Proof.
  unfold getDocumentWithExtractions.
  apply preserves_bind; [apply getDocument_respects|]. intros [[oid d]|]; [|inv_steps].
  apply preserves_bind; [apply getExtractions_respects|]. intros exts.
  apply preserves_bind; [apply getPages_respects|]. intros pgs. inv_steps.
Qed.

Lemma createDocument_respects r user name original mime size st :
  validStatus st →
  preserves I (createDocument r user name original mime size st).
Proof. intros Hst. unfold createDocument. inv_steps; leaf. Qed.

Lemma updateDocument_respects r id u :
  validUpdate u → preserves I (updateDocument cfg r id u).
Proof.
  intros [Hs Hp]. unfold updateDocument.
  apply preserves_bind; [apply newObjectId_respects|]. intros oid.
  inv_steps; leaf.
Qed.

Lemma deleteDocument_respects r id : preserves I (deleteDocument cfg r id).
Proof.
  unfold deleteDocument.
  apply preserves_bind; [apply newObjectId_respects|]. intros oid.
  inv_steps; leaf.
Qed.

Lemma createPage_respects r id number text confidence :
  preserves I (createPage r id number text confidence).
Proof. unfold createPage. inv_steps; leaf. Qed.

Lemma createExtraction_respects r id type analysis :
  boundedKeywords analysis →
  preserves I (createExtraction r id type analysis).
Proof. intros Hk. unfold createExtraction. inv_steps; leaf. Qed.

Lemma getChatMessages_respects r id : preserves I (getChatMessages r id).
Proof. unfold getChatMessages. inv_steps. Qed.

Lemma createChatMessage_respects r id user who what :
  preserves I (createChatMessage r id user who what).
Proof. unfold createChatMessage. inv_steps; leaf. Qed.

Lemma getExtraction_respects r id type : preserves I (getExtraction r id type).
Proof. unfold getExtraction. inv_steps. Qed.

Lemma updateExtraction_respects r oid analysis :
  boundedKeywords analysis → preserves I (updateExtraction r oid analysis).
Proof. intros Hk. unfold updateExtraction. inv_steps; leaf. Qed.

Ltac op :=
  first [ apply existsSync_respects
        | apply readFileSync_respects
        | apply unlinkSync_respects
        | apply getDocuments_respects
        | apply getDocument_respects
        | apply getDocumentWithExtractions_respects
        | apply createDocument_respects; solve_valid
        | apply updateDocument_respects; solve_valid
        | apply deleteDocument_respects
        | apply createPage_respects
        | apply createExtraction_respects; solve_valid
        | apply getChatMessages_respects
        | apply createChatMessage_respects
        | apply getExtraction_respects
        | apply updateExtraction_respects; solve_valid
        | inv_step
        | leaf ].

Ltac ops := cbv zeta; repeat op.

Lemma processDocument_respects env id path :
  preserves I (processDocument cfg env id path).
Proof. unfold processDocument. ops. Qed.


Lemma enhanceAttempt_respects env id text :
  preserves I (enhanceAttempt env id text).
Proof. unfold enhanceAttempt. ops. Qed.

Lemma enhanceAnalysisWithAI_respects env id text :
  preserves I (enhanceAnalysisWithAI env id text).
Proof.
  unfold enhanceAnalysisWithAI.
  apply preserves_tryCatch; [apply enhanceAttempt_respects|]. intros e. ops.
Qed.

Lemma uploadSingle_respects env file : preserves I (uploadSingle cfg env file).
Proof. unfold uploadSingle. ops. Qed.

Lemma handle_respects env req : preserves I (handle cfg env req).
Proof.
  destruct req; simpl.
  - unfold getDocumentRoute. ops.
  - apply preserves_bind; [apply preserves_settle, uploadSingle_respects|].
    intros stored. unfold uploadRoute. ops.
  - unfold deleteDocumentRoute. ops.
  - unfold retryDocumentRoute. ops.
  - unfold getChatRoute. ops.
  - unfold postChatRoute. ops.
Qed.

Lemma reprocess_respects envOf doc : preserves I (reprocess cfg envOf doc).
Proof.
  unfold reprocess.
  apply preserves_bind; [apply existsSync_respects|]. intros [|].
  - apply processDocument_respects.
  - ops.
Qed.

Lemma startupSweep_respects env envOf : preserves I (startupSweep cfg env envOf).
Proof.
  unfold startupSweep.
  apply preserves_tryCatch; [|intros e; ops].
  apply preserves_bind; [apply getDocuments_respects|]. intros docs.
  cbv zeta. destruct (0 <? _); [|ops].
  apply preserves_bind; [|intros; ops].
  apply preserves_allOfList. intros doc _. apply reprocess_respects.
Qed.

Lemma runTask_respects env envOf t : preserves I (runTask cfg env envOf t).
Proof.
  destruct t; simpl.
  - apply preserves_tryCatch; [apply processDocument_respects|]. intros e. ops.
  - apply preserves_tryCatch; [apply processDocument_respects|]. intros e. ops.
  - apply preserves_tryCatch; [apply enhanceAnalysisWithAI_respects|].
    intros e. ops.
  - apply startupSweep_respects.
Qed.

Lemma Step_respects w w' : Step cfg w w' → I w → I w'.
Proof.
  intros [env req | env envOf t before after Hp] Hw.
  - by apply handle_respects.
  - apply runTask_respects. by apply (resp_pending I HI).
Qed.

Lemma Reachable_respects w0 w : I (boot w0) → Reachable cfg w0 w → I w.
Proof.
  intros H0 Hr. unfold Reachable in Hr.
  induction Hr as [|w1 w2 w3 Hs _ IH]; [done|].
  apply IH. by eapply Step_respects.
Qed.

End Programs.

(** ** Running programs *)

(** Unfolds the monad and the storage class, then computes on worlds. *)
Ltac run :=
  cbv delta [mbind M_bind mret M_ret tryCatch call consoleError throw settle
             liftResult getWorld modify detach freshObjectId respond allOf driver
             newObjectId existsSync readFileSync unlinkSync
             getDocuments getDocument getExtractions getPages
             getDocumentWithExtractions createDocument updateDocument
             deleteDocument createPage createExtraction getChatMessages
             createChatMessage getExtraction updateExtraction];
  cbn [fst snd documents pages extractions chatMessages disk nextObjectId
       pending calls set_documents set_pages set_extractions set_chatMessages
       set_disk set_nextObjectId set_pending set_calls
       fmap option_fmap option_map].

Section Pipeline.

Context (cfg : Config).

Lemma pipelineLines_ok env :
  (∀ l, l ∈ pipelineLines → rejects env l = false) →
  rejects env 357 = false ∧ rejects env 360 = false ∧ rejects env 371 = false
  ∧ rejects env 379 = false ∧ rejects env 387 = false ∧ rejects env 399 = false
  ∧ rejects env 416 = false ∧ rejects env 423 = false.
Proof. intros H. repeat split; apply H; unfold pipelineLines; set_solver. Qed.

Lemma processDocument_completes env oid path w buffer ms pdfData stats :
  (∀ l, l ∈ pipelineLines → rejects env l = false) →
  disk w !! path = Some buffer →
  pdfParse env buffer = Fulfills ms pdfData → ms < 30000 →
  getTextStatistics env (truncate 50000 (textOf pdfData)) = Ok stats →
  let text := textOf pdfData in
  let processText := truncate 50000 text in
  let page :=
    {| pg_id := nextObjectId w; pg_documentId := IdObj oid; pageNumber := 1;
       extractedText := text; ocrConfidence := 1 |} in
  let extraction :=
    {| ex_id := N.succ (nextObjectId w); ex_documentId := IdObj oid;
       extractionType := "analysis";
       data := {| summary := quickSummary processText;
                  keywords := take 15 (lighterNlp env processText).2;
                  entities := (lighterNlp env processText).1;
                  tables := [];
                  wordCount := st_wordCount stats;
                  characterCount := st_characterCount stats |} |} in
  let progress p :=
    {| u_status := None; u_processingProgress := Some p;
       u_processedAt := None; u_pageCount := None |} in
  let started :=
    {| u_status := Some "processing"; u_processingProgress := Some 10;
       u_processedAt := None; u_pageCount := None |} in
  let completed :=
    {| u_status := Some "completed"; u_processingProgress := Some 100;
       u_processedAt := Some (now env);
       u_pageCount := Some (pageCountOf pdfData) |} in
  let w' := (processDocument cfg env (IdObj oid) path w).2 in
  (processDocument cfg env (IdObj oid) path w).1 = Ok tt
  ∧ calls w' =
      calls w ++
      [CallProcessDocument (IdObj oid) path;
       CallUpdateDocument oid started;
       CallReadFile path;
       CallPdfParse buffer 30000;
       CallUpdateDocument oid (progress 25);
       CallCreatePage page;
       CallGetTextStatistics processText;
       CallUpdateDocument oid (progress 40);
       CallNlp processText 10000;
       CallUpdateDocument oid (progress 60);
       CallCreateExtraction extraction;
       CallUpdateDocument oid completed] ++
      (if isGeminiConfigured cfg then [CallEnhance (IdObj oid) text] else [])
  ∧ pages w' = pages w ++ [page]
  ∧ extractions w' = extractions w ++ [extraction]
  ∧ documents w' !! oid =
      applyUpdate completed <$>
        (applyUpdate (progress 60) <$>
          (applyUpdate (progress 40) <$>
            (applyUpdate (progress 25) <$>
              (applyUpdate started <$> documents w !! oid))))
  ∧ pending w' =
      pending w ++
      (if isGeminiConfigured cfg then [TEnhance (IdObj oid) text] else []).
Proof.
  intros Hrej Hdisk Hparse Hms Hstats.
  destruct (pipelineLines_ok env Hrej)
    as (H357 & H360 & H371 & H379 & H387 & H399 & H416 & H423).
  apply Z.ltb_lt in Hms.
  cbv zeta. unfold processDocument.
  rewrite H357, H360, H371, H379, H387, H399, H416, H423.
  run. rewrite Hdisk. run. unfold withTimeout. rewrite Hparse, Hms. run.
  rewrite Hstats. run.
  destruct (lighterNlp env _) as [ents kws] eqn:Hnlp. run.
  destruct (isGeminiConfigured cfg); run;
    rewrite !lookup_alter_eq, <- !app_assoc; simpl; repeat split;
    try reflexivity; by rewrite app_nil_r.
Qed.



End Pipeline.

(** ** C1: the order of the steps of [processDocument] *)


(** ** How a run of the pipeline ends *)


Section Outcome.

Context (cfg : Config).



End Outcome.

(** ** C2: failures before completion *)


(** ** C6: truncation *)

(** C6.  When the parsed text is longer than 50000 code units, a run in
    which every step succeeds saves a page record holding the whole text,
    and an extraction whose summary, keywords, entities and statistics are
    those of the first 50000 code units of the text. *)
Theorem long_text_is_truncated_for_analysis
    (cfg : Config) (env : Env) (oid : N) (path : string) (w : World)
    (buffer : Buffer) (ms : Z) (pdfData : PdfData) (stats : TextStatistics) :
  disk w !! path = Some buffer →
  (∀ l, l ∈ pipelineLines → rejects env l = false) →
  pdfParse env buffer = Fulfills ms pdfData → ms < 30000 →
  50000 < jsLength (textOf pdfData) →
  getTextStatistics env (take (Z.to_nat 50000) (textOf pdfData)) = Ok stats →
  let text := textOf pdfData in
  let processText := take (Z.to_nat 50000) text in
  let w' := (processDocument cfg env (IdObj oid) path w).2 in
  jsLength processText = 50000
  ∧ pages w' =
      pages w ++
      [{| pg_id := nextObjectId w; pg_documentId := IdObj oid; pageNumber := 1;
          extractedText := text; ocrConfidence := 1 |}]
  ∧ extractions w' =
      extractions w ++
      [{| ex_id := N.succ (nextObjectId w); ex_documentId := IdObj oid;
          extractionType := "analysis";
          data := {| summary := quickSummary processText;
                     keywords := take 15 (lighterNlp env processText).2;
                     entities := (lighterNlp env processText).1;
                     tables := [];
                     wordCount := st_wordCount stats;
                     characterCount := st_characterCount stats |} |}]
  ∧ CallGetTextStatistics processText ∈ calls w'
  ∧ CallNlp processText 10000 ∈ calls w'.
Proof.
  intros Hdisk Hrej Hparse Hms Hlong Hstats text processText w'.
  subst text processText w'.
  assert (Htrunc : truncate 50000 (textOf pdfData)
                   = take (Z.to_nat 50000) (textOf pdfData)).
  { unfold truncate, substring0. apply Z.ltb_lt in Hlong. by rewrite Hlong. }
  rewrite <- Htrunc in Hstats.
  destruct (processDocument_completes cfg env oid path w buffer ms pdfData
              stats Hrej Hdisk Hparse Hms Hstats)
    as (_ & Hcalls & Hpages & Hexts & _ & _).
  rewrite Htrunc in Hcalls, Hexts.
  split; [|split; [exact Hpages|split; [exact Hexts|]]].
  - unfold jsLength in *. rewrite length_take. lia.
  - rewrite Hcalls. split; set_solver.
Qed.

(** ** Invariants of the whole server *)

Lemma applyUpdate_valid u d :
  validUpdate u → validDocument d → validDocument (applyUpdate u d).
Proof.
  intros [Hs Hp] [Hds Hdp]. split; simpl.
  - destruct (u_status u); simpl in *; assumption.
  - destruct (u_processingProgress u); simpl in *; assumption.
Qed.

(** Every call in the log is a good one. *)
Lemma log_respects : Respects (λ w, Forall goodCall (calls w)).
Proof.
  split; try (intros; intros w Hw; exact Hw).
  intros e He w Hw. simpl. apply Forall_app. split; [exact Hw|].
  by apply Forall_singleton.
Qed.

(** Every stored document is valid. *)
Lemma documents_respect :
  Respects (λ w, map_Forall (λ _ d, validDocument d) (documents w)).
Proof.
  split; try (intros; intros w Hw; exact Hw).
  - intros oid d Hd w Hw. simpl. by apply map_Forall_insert_2.
  - intros oid u Hu w Hw. simpl. intros k d Hk.
    destruct (decide (oid = k)) as [->|Hne].
    + rewrite lookup_alter_eq in Hk.
      destruct (documents w !! k) as [d0|] eqn:Hd0; simpl in Hk; [|done].
      injection Hk as <-. apply applyUpdate_valid; [done|]. by apply (Hw k).
    + rewrite lookup_alter_ne in Hk by done. by apply (Hw k).
  - intros oid w Hw. simpl. by apply map_Forall_delete.
Qed.

(** Every stored extraction has at most 15 keywords. *)
Lemma extractions_respect :
  Respects (λ w, Forall (λ x, boundedKeywords (data x)) (extractions w)).
Proof.
  split; try (intros; intros w Hw; exact Hw).
  - intros x Hx w Hw. simpl. apply Forall_app. split; [exact Hw|].
    by apply Forall_singleton.
  - intros oid a Ha w Hw. simpl. apply Forall_fmap.
    eapply Forall_impl; [exact Hw|]. intros x Hx. unfold setData. simpl.
    by destruct (bool_decide (ex_id x = oid)).
Qed.

Lemma boot_calls w0 : calls (boot w0) = [].
Proof. reflexivity. Qed.

Lemma Reachable_goodCalls cfg w0 w :
  Reachable cfg w0 w → Forall goodCall (calls w).
Proof.
  apply (Reachable_respects cfg _ log_respects). rewrite boot_calls. constructor.
Qed.

(** ** C3: document writes *)

(** C3.  In every state the server can reach, every write of a document
    record in the call log sets a status, when it sets one, that is one of
    "processing", "completed" and "error", and a progress, when it sets
    one, that is one of -1, 0, 10, 25, 40, 60 and 100, hence -1 or between
    0 and 100; and if the documents found at startup have such fields, so
    have the stored documents ever after. *)
Theorem document_writes_are_valid (cfg : Config) (w0 w : World) :
  Reachable cfg w0 w →
  Forall validDocumentWrite (calls w)
  ∧ (map_Forall (λ _ d, validDocument d) (documents w0) →
     map_Forall (λ _ d, validDocument d) (documents w))
  ∧ (∀ s, validStatus s → s = "processing" ∨ s = "completed" ∨ s = "error")
  ∧ (∀ p, validProgress p → p = -1 ∨ 0 ≤ p ≤ 100).
Proof.
  intros Hr. split; [|split; [|split]].
  - eapply Forall_impl; [by eapply Reachable_goodCalls|]. by intros e [He _].
  - intros Hstart. by apply (Reachable_respects cfg _ documents_respect w0 w).
  - intros s Hs. unfold validStatus, statusValues in Hs. set_unfold in Hs.
    destruct_or!; subst; auto.
  - intros p Hp. unfold validProgress, progressValues in Hp. set_unfold in Hp.
    destruct_or!; subst; lia.
Qed.

(** ** C10: the keywords of an extraction *)

(** C10.  In every state the server can reach, every extraction written,
    when it is created by the pipeline and when the AI enhancement
    replaces its payload, has at most 15 keywords; and if the extractions
    found at startup have at most 15 keywords, so have the stored
    extractions ever after. *)
Theorem extraction_keywords_are_bounded (cfg : Config) (w0 w : World) :
  Reachable cfg w0 w →
  Forall boundedExtractionWrite (calls w)
  ∧ (Forall (λ x, boundedKeywords (data x)) (extractions w0) →
     Forall (λ x, boundedKeywords (data x)) (extractions w)).
Proof.
  intros Hr. split.
  - eapply Forall_impl; [by eapply Reachable_goodCalls|]. by intros e [_ He].
  - intros Hstart. by apply (Reachable_respects cfg _ extractions_respect w0 w).
Qed.

(** ** C4: failures of the AI enhancement *)

(** C4.  [enhanceAnalysisWithAI] never rejects, whatever the Gemini
    service and the storage answer, and neither does the detached promise
    that [processDocument] starts for it; it never writes to the
    documents collection, so status and progress stay as they are; when
    something fails inside its [try] block (the 45000 ms timeout
    included) the stored extractions are left as they are and the failure
    is only logged. *)
Theorem enhancement_failures_are_suppressed
    (cfg : Config) (env : Env) (envOf : N → Env) (id : IdVal) (text : Text)
    (w : World) :
  let w' := (enhanceAnalysisWithAI env id text w).2 in
  let textForAI := truncate 5000 text in
  (enhanceAnalysisWithAI env id text w).1 = Ok tt
  ∧ (runTask cfg env envOf (TEnhance id text) w).1 = Ok tt
  ∧ documents w' = documents w
  ∧ documents (runTask cfg env envOf (TEnhance id text) w).2 = documents w
  ∧ (∀ e, (enhanceAttempt env id text w).1 = Throw e →
       extractions w' = extractions w
       ∧ last (calls w') = Some (ConsoleError "AI enhancement failed:"))
  ∧ (settlesBefore
       (promiseAll (generateDocumentSummary env textForAI)
                   (extractKeywords env textForAI)) 45000 = false →
     (enhanceAttempt env id text w).1
       = Throw "AI enhancement timed out after 45 seconds").
Proof.
  cbv zeta. unfold runTask, enhanceAnalysisWithAI, enhanceAttempt.
  destruct (withTimeout _ 45000 _) as [[aiSummary aiKeywords]|e0] eqn:Hai.
  - assert (Hsettled : settlesBefore
              (promiseAll (generateDocumentSummary env (truncate 5000 text))
                          (extractKeywords env (truncate 5000 text))) 45000
            = true).
    { unfold withTimeout, settlesBefore in *.
      destruct (promiseAll _ _) as [ms x|ms x|]; try destruct (ms <? 45000);
        congruence. }
    rewrite Hsettled.
    destruct (rejects env 460); run;
      [repeat split; try done; intros; by rewrite last_snoc|].
    destruct (head _) as [existing|]; run; [|repeat split; done].
    destruct (rejects env 467); run; repeat split; try done.
    intros. by rewrite last_snoc.
  - assert (He0 : settlesBefore
              (promiseAll (generateDocumentSummary env (truncate 5000 text))
                          (extractKeywords env (truncate 5000 text))) 45000
            = false →
            e0 = "AI enhancement timed out after 45 seconds").
    { unfold withTimeout, settlesBefore in *.
      destruct (promiseAll _ _) as [ms x|ms x|]; try destruct (ms <? 45000);
        congruence. }
    run. repeat split; try done.
    + intros. by rewrite last_snoc.
    + intros Hlate. by rewrite He0.
Qed.

(** ** C7: the upload route *)

(** C7.  Multer lets a file through exactly when its mimetype is
    "application/pdf" and its size is at most 100 * 1024 * 1024 bytes; a
    file of another mimetype is refused by the file filter with the error
    "Only PDF files are allowed", the route handler does not run and
    nothing is stored; and when the route answers an accepted upload with
    the created document, which it does whenever the storage takes the
    insert, that document has status "processing" and is in the
    collection when the response is sent. *)
Theorem upload_accepts_only_pdf_within_limit
    (cfg : Config) (env : Env) (user : string) (f : IncomingFile) (w : World) :
  fileSizeLimit = 104857600
  ∧ ((∃ file, (uploadSingle cfg env (Some f) w).1 = Ok (Some file))
     ↔ in_mimetype f = "application/pdf" ∧ in_size f ≤ fileSizeLimit)
  ∧ (in_mimetype f ≠ "application/pdf" →
     fileFilter (in_mimetype f) = Throw "Only PDF files are allowed"
     ∧ handle cfg env (Upload user (Some f)) w
       = (Ok {| code := 500; body := ExpressError "Only PDF files are allowed" |}, w))
  ∧ (in_mimetype f = "application/pdf" → in_size f ≤ fileSizeLimit →
     ∃ resp, (handle cfg env (Upload user (Some f)) w).1 = Ok resp
       ∧ (rejects env 132 = false → code resp = 200)
       ∧ (code resp = 200 →
          ∃ oid d, body resp = DocumentJson oid d
                   ∧ status d = "processing"
                   ∧ userId d = user
                   ∧ documents (handle cfg env (Upload user (Some f)) w).2 !! oid
                     = Some d
                   ∧ CallCreateDocument oid d
                     ∈ calls (handle cfg env (Upload user (Some f)) w).2)).
Proof.
  split; [reflexivity|]. split; [|split].
  - unfold uploadSingle, fileFilter. split.
    + intros [file Hfile]. revert Hfile. case_bool_decide as Hpdf; run; [|done].
      destruct (fileSizeLimit <? in_size f) eqn:Hsize; run; [done|].
      intros _. split; [done|]. by apply Z.ltb_ge.
    + intros [Hpdf Hsize]. rewrite bool_decide_eq_true_2 by done. run.
      apply Z.ltb_ge in Hsize. rewrite Hsize. run. by eexists.
  - intros Hpdf. unfold handle, uploadSingle, fileFilter.
    rewrite bool_decide_eq_false_2 by done. by run.
  - intros Hpdf Hsize. unfold handle, uploadSingle, uploadRoute, fileFilter.
    rewrite bool_decide_eq_true_2 by done. run.
    apply Z.ltb_ge in Hsize. rewrite Hsize. run.
    destruct (rejects env 132); run.
    + eexists. split; [reflexivity|]. split; [done|]. simpl. lia.
    + eexists. split; [reflexivity|]. split; [done|]. intros _.
      do 2 eexists. split; [reflexivity|]. simpl.
      rewrite lookup_insert_eq. repeat split. set_solver.
Qed.

(** ** C8: ownership checks *)


(** ** C9: deleting a document *)


(** ** Frames for the startup sweep *)

Lemma preserves_bind_mret {A B} (I : World → Prop) (a : A) (k : A → M B) :
  preserves I (k a) → preserves I (mret a ≫= k).
Proof. intros Hk w Hw. apply Hk, Hw. Qed.

(** Proves that a program keeps a property of the parts of the world it
    does not write to. *)
Ltac frame :=
  cbv beta iota zeta delta
    [consoleError respond driver newObjectId existsSync readFileSync unlinkSync
     getDocuments getDocument getExtractions getPages
     getDocumentWithExtractions createDocument updateDocument deleteDocument
     createPage createExtraction getChatMessages createChatMessage
     getExtraction updateExtraction];
  repeat first [ apply preserves_bind_mret | inv_step ];
  try (intros ? ?;
       cbn [documents pages extractions chatMessages disk nextObjectId
            pending calls set_documents set_pages set_extractions
            set_chatMessages set_disk set_nextObjectId set_pending set_calls];
       first [ assumption | by rewrite lookup_alter_ne ]).

Section Sweep.

Context (cfg : Config).

Lemma processDocument_disk env id path D :
  preserves (λ w, disk w = D) (processDocument cfg env id path).
Proof. unfold processDocument. frame. Qed.

Lemma processDocument_other_document env oid' path oid X :
  oid' ≠ oid →
  preserves (λ w, documents w !! oid = X)
    (processDocument cfg env (IdObj oid') path).
Proof. intros Hne. unfold processDocument. frame. Qed.

Lemma reprocess_disk envOf doc D :
  preserves (λ w, disk w = D) (reprocess cfg envOf doc).
Proof.
  unfold reprocess. cbv zeta.
  apply preserves_bind; [frame|]. intros [|]; [apply processDocument_disk|frame].
Qed.

Lemma reprocess_other_document envOf doc oid X :
  doc.1 ≠ oid →
  preserves (λ w, documents w !! oid = X) (reprocess cfg envOf doc).
Proof.
  intros Hne. unfold reprocess. cbv zeta.
  apply preserves_bind; [frame|].
  intros [|]; [by apply processDocument_other_document|frame].
Qed.


Lemma preserves_and {A} (I J : World → Prop) (m : M A) :
  preserves I m → preserves J m → preserves (λ w, I w ∧ J w) m.
Proof. intros HI HJ w [Hi Hj]. split; [by apply HI|by apply HJ]. Qed.

Lemma notRestarted_refl oid w : notRestarted oid w w.
Proof. exists []. split; [by rewrite app_nil_r|]. intros p Hp. by inversion Hp. Qed.

Lemma notRestarted_call oid w0 e w :
  (∀ path, e ≠ CallProcessDocument (IdObj oid) path) →
  notRestarted oid w0 w →
  notRestarted oid w0 (set_calls (λ l, l ++ [e]) w).
Proof.
  intros He (new & Hc & Hn). exists (new ++ [e]). split.
  - simpl. by rewrite Hc, app_assoc.
  - intros p Hp. apply elem_of_app in Hp as [Hp|Hp]; [by eapply Hn|].
    apply list_elem_of_singleton in Hp. by eapply He.
Qed.

Ltac frame_calls :=
  cbv beta iota zeta delta
    [consoleError respond driver newObjectId existsSync readFileSync unlinkSync
     getDocuments getDocument getExtractions getPages
     getDocumentWithExtractions createDocument updateDocument deleteDocument
     createPage createExtraction getChatMessages createChatMessage
     getExtraction updateExtraction];
  repeat first [ apply preserves_bind_mret | inv_step ];
  try (intros ? ?;
       first [ assumption
             | apply notRestarted_call; [intros ?; congruence|assumption] ]).

Lemma processDocument_notRestarted env oid' path oid w0 :
  oid' ≠ oid →
  preserves (notRestarted oid w0) (processDocument cfg env (IdObj oid') path).
Proof. intros Hne. unfold processDocument. frame_calls. Qed.

Lemma reprocess_notRestarted envOf doc oid w0 :
  doc.1 ≠ oid →
  preserves (notRestarted oid w0) (reprocess cfg envOf doc).
Proof.
  intros Hne. unfold reprocess. cbv zeta.
  apply preserves_bind; [frame_calls|].
  intros [|]; [by apply processDocument_notRestarted|frame_calls].
Qed.

End Sweep.

Section SweepList.

Context (cfg : Config).



Lemma sweptDocuments_spec w oid doc :
  (oid, doc) ∈ sweptDocuments w
  ↔ documents w !! oid = Some doc
    ∧ userId doc = mockUserId ∧ status doc = "processing".
Proof.
  unfold sweptDocuments, stuckDocuments.
  rewrite !list_elem_of_filter, elem_of_map_to_list. simpl. tauto.
Qed.



Lemma startupSweep_post env envOf w (Q : World → Prop) :
  rejects env 313 = false →
  (∀ w', Q w' →
     Q (set_calls
          (λ l, l ++ [ConsoleError
                        "Error during startup reprocessing of stuck documents:"])
          w')) →
  Q (allOfList (reprocess cfg envOf) (sweptDocuments w) w).2 →
  Q (startupSweep cfg env envOf w).2.
Proof.
  intros H313 Hcall. unfold startupSweep. rewrite H313. run.
  fold (sweptDocuments w).
  destruct (sweptDocuments w) as [|x r] eqn:Hl.
  - simpl. done.
  - replace (0 <? Z.of_nat (length (x :: r))) with true
      by (symmetry; apply Z.ltb_lt; simpl; lia).
    destruct (allOfList _ _ w) as [[ys|e] w1]; run; simpl; auto.
Qed.

End SweepList.


(** ** C5: the startup sweep *)


(** * Examples *)

(** ** Witnesses *)

Lemma demoEnv_healthy l : rejects demoEnv l = false.
Proof. reflexivity. Qed.




Lemma demoUploaded_reachable : Reachable demoCfg demoWorld demoUploaded.
Proof.
  eapply rtc_l; [|apply rtc_refl].
  apply (StepRequest demoCfg (boot demoWorld) demoEnv
           (Upload "bob" (Some demoFile))).
Defined.

Lemma demoProcessed_reachable : Reachable demoCfg demoWorld demoProcessed.
Proof.
  eapply rtc_r; [exact demoUploaded_reachable|].
  apply (StepTask demoCfg demoUploaded demoEnv (λ _, demoEnv)
           (TProcessUpload (IdObj 3) demoUploadPath) [TStartupSweep] []).
  vm_compute. reflexivity.
Defined.

Lemma demoEnhanced_reachable : Reachable demoCfg demoWorld demoEnhanced.
Proof.
  eapply rtc_r; [exact demoProcessed_reachable|].
  apply (StepTask demoCfg demoProcessed demoEnv (λ _, demoEnv)
           (TEnhance (IdObj 3) demoText) [TStartupSweep] []).
  vm_compute. reflexivity.
Defined.

(** C3 at the demo installation, after an upload and its pipeline run. *)
Lemma document_writes_are_valid_witness :
  Reachable demoCfg demoWorld demoProcessed
  ∧ Forall validDocumentWrite (calls demoProcessed).
Proof.
  split; [exact demoProcessed_reachable|].
  exact (proj1 (document_writes_are_valid demoCfg demoWorld demoProcessed
                  demoProcessed_reachable)).
Defined.

(** C10 at the demo installation, after an upload, its pipeline run and
    the AI enhancement of its extraction. *)
Lemma extraction_keywords_are_bounded_witness :
  Reachable demoCfg demoWorld demoEnhanced
  ∧ Forall boundedExtractionWrite (calls demoEnhanced).
Proof.
  split; [exact demoEnhanced_reachable|].
  exact (proj1 (extraction_keywords_are_bounded demoCfg demoWorld demoEnhanced
                  demoEnhanced_reachable)).
Defined.

(** C6 at the demo installation: a text of 50001 code units. *)
Lemma long_text_is_truncated_for_analysis_witness :
  50000 < jsLength (textOf longPdf)
  ∧ jsLength (take (Z.to_nat 50000) longText) = 50000
  ∧ extractedText <$>
      pages (processDocument demoCfg demoEnvLong (IdObj 1) mockPath demoWorld).2
    = [longText].
Proof.
  assert (Hdisk : disk demoWorld !! mockPath = Some demoBuffer)
    by (vm_compute; reflexivity).
  assert (Hrej : ∀ l, l ∈ pipelineLines → rejects demoEnvLong l = false)
    by (intros l _; reflexivity).
  assert (Hlong : 50000 < jsLength (textOf longPdf))
    by (vm_compute; reflexivity).
  destruct (long_text_is_truncated_for_analysis demoCfg demoEnvLong 1 mockPath
              demoWorld demoBuffer 2500 longPdf demoStats Hdisk Hrej eq_refl
              eq_refl Hlong eq_refl) as (Hlen & Hpages & _).
  split; [exact Hlong|]. split; [exact Hlen|].
  rewrite Hpages. reflexivity.
Defined.

(** C4 at the demo installation: the Gemini service is down, the
    enhancement is attempted on the processed document and changes
    neither the documents nor the extractions. *)
Lemma enhancement_failures_are_suppressed_witness :
  (enhanceAttempt (withGemini (λ _, NeverSettles) demoEnv) (IdObj 3) demoText
     demoProcessed).1
  = Throw "AI enhancement timed out after 45 seconds"
  ∧ (enhanceAnalysisWithAI (withGemini (λ _, NeverSettles) demoEnv) (IdObj 3)
       demoText demoProcessed).1 = Ok tt
  ∧ documents
      (enhanceAnalysisWithAI (withGemini (λ _, NeverSettles) demoEnv) (IdObj 3)
         demoText demoProcessed).2 = documents demoProcessed
  ∧ extractions
      (enhanceAnalysisWithAI (withGemini (λ _, NeverSettles) demoEnv) (IdObj 3)
         demoText demoProcessed).2 = extractions demoProcessed.
Proof.
  destruct (enhancement_failures_are_suppressed demoCfg
              (withGemini (λ _, NeverSettles) demoEnv) (λ _, demoEnv) (IdObj 3)
              demoText demoProcessed)
    as (Hok & _ & Hdocs & _ & Hfailed & Htimeout).
  pose proof (Htimeout eq_refl) as Hthrow.
  destruct (Hfailed _ Hthrow) as [Hexts _].
  exact (conj Hthrow (conj Hok (conj Hdocs Hexts))).
Defined.



(** C7 at the demo installation: a PDF of exactly 100 MB is accepted and
    answered with the created document. *)
Lemma upload_accepts_only_pdf_within_limit_witness :
  in_size demoFile = fileSizeLimit
  ∧ ∃ resp, (handle demoCfg demoEnv (Upload "bob" (Some demoFile)) demoWorld).1
            = Ok resp
            ∧ code resp = 200.
Proof.
  destruct (upload_accepts_only_pdf_within_limit demoCfg demoEnv "bob" demoFile
              demoWorld) as (_ & _ & _ & Haccepted).
  destruct (Haccepted eq_refl ltac:(vm_compute; discriminate))
    as (resp & Hresp & Hcode & _).
  split; [reflexivity|]. exists resp. split; [exact Hresp|exact (Hcode eq_refl)].
Defined.




(** * Further properties *)

(** ** Promises under a timeout *)

Lemma withTimeout_all_ok {A B} (p : Promise A) (q : Promise B) timeoutMs
    errorMsg a b :
  withTimeout (promiseAll p q) timeoutMs errorMsg = Ok (a, b)
  ↔ ∃ m n, p = Fulfills m a ∧ q = Fulfills n b ∧ m < timeoutMs ∧ n < timeoutMs.
Proof.
  split.
  - destruct p as [m x|m e|], q as [n y|n e'|]; simpl;
      try (destruct (m <=? n)); simpl;
      repeat match goal with
             | |- context [?x <? timeoutMs] =>
                 destruct (x <? timeoutMs) eqn:?
             end; try discriminate;
      intros [= -> ->]; exists m, n;
      match goal with H : (_ <? _) = true |- _ => apply Z.ltb_lt in H end;
      repeat split; lia.
  - intros (m & n & -> & -> & Hm & Hn). simpl.
    replace (Z.max m n <? timeoutMs) with true; [done|].
    symmetry. apply Z.ltb_lt. lia.
Qed.


(** X2.  The lighter NLP is all or nothing: its entities and keywords are
    those of the two services when both answer within 10000 ms, and both
    lists are empty as soon as either service is late, fails or never
    answers, whatever the other one found. *)
Theorem lighterNlp_all_or_nothing (env : Env) (processText : Text) :
  (∀ m n found keys,
     extractEntities env processText = Fulfills m found →
     extractKeywordsFromText env processText = Fulfills n keys →
     m < 10000 → n < 10000 →
     lighterNlp env processText = (found, keys))
  ∧ ((∀ m found, extractEntities env processText = Fulfills m found →
                 10000 ≤ m) →
     lighterNlp env processText = ([], []))
  ∧ ((∀ n keys, extractKeywordsFromText env processText = Fulfills n keys →
                10000 ≤ n) →
     lighterNlp env processText = ([], [])).
Proof.
  unfold lighterNlp. split; [|split].
  - intros m n found keys He Hk Hm Hn.
    destruct (withTimeout_all_ok
                (extractEntities env processText)
                (extractKeywordsFromText env processText) 10000
                "NLP processing timed out" found keys) as [_ Hok].
    rewrite Hok; [done|]. by exists m, n.
  - intros Hlate.
    destruct (withTimeout _ 10000 _) as [[found keys]|e] eqn:Hw; [|done].
    apply withTimeout_all_ok in Hw as (m & n & He & _ & Hm & _).
    specialize (Hlate m found He). lia.
  - intros Hlate.
    destruct (withTimeout _ 10000 _) as [[found keys]|e] eqn:Hw; [|done].
    apply withTimeout_all_ok in Hw as (m & n & _ & Hk & _ & Hn).
    specialize (Hlate n keys Hk). lia.
Qed.

(** ** Strings *)

Lemma dropWhite_spec t :
  dropWhite t = [] ∨ ∃ c r, dropWhite t = c :: r ∧ isWhite c = false.
Proof.
  induction t as [|c r IH]; simpl; [by left|].
  destruct (isWhite c) eqn:Hc; [exact IH|]. right. by exists c, r.
Qed.

Lemma dropWhite_idemp t : dropWhite (dropWhite t) = dropWhite t.
Proof.
  destruct (dropWhite_spec t) as [->|(c & r & -> & Hc)]; [done|].
  simpl. by rewrite Hc.
Qed.

Lemma dropWhite_snoc t c :
  isWhite c = false → dropWhite (t ++ [c]) = dropWhite t ++ [c].
Proof.
  intros Hc. induction t as [|x r IH]; simpl; [by rewrite Hc|].
  by destruct (isWhite x).
Qed.


Lemma dropWhite_elem c t : c ∈ dropWhite t → c ∈ t.
Proof.
  induction t as [|x r IH]; simpl; [done|].
  destruct (isWhite x); [|done]. intros Hc. right. by apply IH.
Qed.

Lemma elem_of_rev {A} (x : A) l : x ∈ rev l ↔ x ∈ l.
Proof. rewrite !list_elem_of_In. symmetry. apply in_rev. Qed.


Lemma trim_elem c t : c ∈ trim t → c ∈ t.
Proof.
  unfold trim. rewrite elem_of_rev. intros Hc.
  apply dropWhite_elem, elem_of_rev, dropWhite_elem in Hc. exact Hc.
Qed.

(** Trimming twice is trimming once. *)
Lemma trim_idemp t : trim (trim t) = trim t.
Proof.
  assert (Hfront : dropWhite (trim t) = trim t).
  { unfold trim. destruct (dropWhite_spec t) as [->|(c & r & -> & Hc)]; [done|].
    simpl. rewrite dropWhite_snoc by done. rewrite rev_app_distr.
    simpl. by rewrite Hc. }
  unfold trim at 1. rewrite Hfront. unfold trim.
  by rewrite rev_involutive, dropWhite_idemp.
Qed.

Lemma splitAt_nonempty sep cur t : splitAt sep cur t ≠ [].
Proof.
  revert cur. induction t as [|c r IH]; intros cur; simpl; [done|].
  destruct (c =? sep)%N; [done|apply IH].
Qed.

Lemma splitAt_length sep cur t :
  length (splitAt sep cur t) = S (length (filter (λ c, c = sep) t)).
Proof.
  unfold Text in *.
  revert cur. induction t as [|c r IH]; intros cur; [done|].
  rewrite filter_cons. cbn [splitAt].
  destruct (N.eqb_spec c sep) as [->|Hne].
  - rewrite decide_True by done. simpl. by rewrite IH.
  - rewrite decide_False by done. apply IH.
Qed.

Lemma splitAt_pieces sep cur t :
  sep ∉ cur → Forall (λ p, sep ∉ p) (splitAt sep cur t).
Proof.
  revert cur. induction t as [|c r IH]; intros cur Hcur; simpl.
  - apply Forall_singleton. by rewrite elem_of_rev.
  - destruct (N.eqb_spec c sep) as [->|Hne].
    + apply Forall_cons. split; [by rewrite elem_of_rev|].
      apply IH. by apply not_elem_of_nil.
    + apply IH. rewrite not_elem_of_cons. split; [congruence|done].
Qed.

Lemma join_cons sep p rest :
  rest ≠ [] → join sep (p :: rest) = p ++ sep ++ join sep rest.
Proof. by destruct rest. Qed.

(** Splitting at a separator and joining with it gives the text back. *)
Lemma join_splitAt sep cur t : join [sep] (splitAt sep cur t) = rev cur ++ t.
Proof.
  revert cur. induction t as [|c r IH]; intros cur; cbn [splitAt].
  - simpl. by rewrite app_nil_r.
  - destruct (N.eqb_spec c sep) as [->|Hne].
    + rewrite join_cons by apply splitAt_nonempty. by rewrite IH.
    + rewrite IH. simpl. by rewrite <- app_assoc.
Qed.

(** ** The keywords asked of Gemini *)

(** X3.  [extractKeywords] sends a prompt that ends with the text, passes
    a rejection of the service on, and turns an answer into one keyword
    more than the answer has commas, an empty answer giving the single
    keyword "": no keyword contains a comma and every keyword is
    trimmed. *)
Theorem extractKeywords_shape (env : Env) (text : Text) :
  ∃ prompt,
    (text `suffix_of` prompt)
    ∧ (∀ ms response,
         generateContent env prompt = Fulfills ms response →
         ∃ kws, extractKeywords env text = Fulfills ms kws
                ∧ length kws = S (length (filter (λ c, c = 44%N) response))
                ∧ Forall (λ k, (44%N ∉ k) ∧ trim k = k) kws)
    ∧ (generateContent env prompt = Fulfills 0 [] →
       extractKeywords env text = Fulfills 0 [[]])
    ∧ (∀ ms e,
         generateContent env prompt = Rejects ms e →
         extractKeywords env text = Rejects ms e).
Proof.
  unfold extractKeywords. eexists. split; [by eexists|]. split; [|split].
  - intros ms response ->. simpl. eexists. split; [reflexivity|]. split.
    + rewrite length_map. apply splitAt_length.
    + apply Forall_fmap.
      eapply Forall_impl; [apply (splitAt_pieces 44%N [] response)|].
      * apply not_elem_of_nil.
      * intros k Hk. simpl. split; [|apply trim_idemp].
        intros Hc. by apply Hk, trim_elem.
  - by intros ->.
  - by intros ms e ->.
Qed.

(** ** Merging keywords *)

Lemma filter_all {A} (P : A → Prop) `{∀ x, Decision (P x)} (l : list A) :
  (∀ x, x ∈ l → P x) → filter P l = l.
Proof.
  induction l as [|x r IH]; intros Hall; [done|].
  rewrite filter_cons_True by (apply Hall; by left).
  f_equal. apply IH. intros y Hy. apply Hall. by right.
Qed.

Lemma filter_none {A} (P : A → Prop) `{∀ x, Decision (P x)} (l : list A) :
  (∀ x, x ∈ l → ¬ P x) → filter P l = [].
Proof.
  induction l as [|x r IH]; intros Hnone; [done|].
  rewrite filter_cons_False by (apply Hnone; by left).
  apply IH. intros y Hy. apply Hnone. by right.
Qed.

Lemma uniq_elem k l : k ∈ uniq l ↔ k ∈ l.
Proof.
  induction l as [|x r IH]; simpl; [done|].
  rewrite !elem_of_cons, list_elem_of_filter, IH.
  destruct (decide (k = x)) as [->|Hne]; [tauto|]. tauto.
Qed.

Lemma uniq_NoDup l : NoDup (uniq l).
Proof.
  induction l as [|x r IH]; simpl; [constructor|].
  apply NoDup_cons. split; [|by apply NoDup_filter].
  rewrite list_elem_of_filter. intros [Hne _]. by apply Hne.
Qed.

Lemma uniq_app a b :
  uniq (a ++ b) = uniq a ++ filter (λ k, k ∉ a) (uniq b).
Proof.
  induction a as [|x r IH]; simpl.
  - symmetry. apply filter_all. intros k _. apply not_elem_of_nil.
  - f_equal. rewrite IH, filter_app. f_equal.
    rewrite list_filter_filter. apply list_filter_iff.
    intros k. rewrite not_elem_of_cons. tauto.
Qed.

(** X4.  The keywords merged by the AI enhancement have no duplicates and
    are exactly the AI's and the existing ones; the AI's come first, in
    their order of first occurrence, so that with 15 or more distinct AI
    keywords none of the existing keywords is kept. *)
Theorem merged_keywords_prefer_ai (aiKeywords existing : list Text) :
  let mergedKeywords := uniq (aiKeywords ++ existing) in
  NoDup mergedKeywords
  ∧ (∀ k, k ∈ mergedKeywords ↔ k ∈ aiKeywords ∨ k ∈ existing)
  ∧ (uniq aiKeywords `prefix_of` mergedKeywords)
  ∧ ((15 ≤ length (uniq aiKeywords))%nat →
     take 15 mergedKeywords = take 15 (uniq aiKeywords)).
Proof.
  cbv zeta. split; [apply uniq_NoDup|]. split; [|split].
  - intros k. by rewrite uniq_elem, elem_of_app.
  - rewrite uniq_app. by eexists.
  - intros Hlong. rewrite uniq_app. by rewrite take_app_le.
Qed.

Lemma uniq_id l : NoDup l → uniq l = l.
Proof.
  induction l as [|x r IH]; intros Hnd; [done|].
  apply NoDup_cons in Hnd as [Hx Hr]. simpl. rewrite (IH Hr). f_equal.
  apply filter_all. intros k Hk ->. done.
Qed.

(** X5.  Enhancing twice changes no keyword: merging the same AI keywords
    into the 15 keywords that a first merge has kept gives those 15
    keywords again, in the same order. *)
Theorem merging_again_changes_nothing (aiKeywords existing : list Text) :
  let kept := take 15 (uniq (aiKeywords ++ existing)) in
  take 15 (uniq (aiKeywords ++ kept)) = kept.
Proof.
  cbv zeta. rewrite (uniq_app aiKeywords existing).
  set (fromAi := uniq aiKeywords).
  set (others := filter (λ k, k ∉ aiKeywords) (uniq existing)).
  assert (Hai : ∀ k, k ∈ fromAi → k ∈ aiKeywords)
    by (intros k; apply uniq_elem).
  assert (Hothers : ∀ k, k ∈ others → k ∉ aiKeywords)
    by (intros k Hk; by apply list_elem_of_filter in Hk as [? _]).
  assert (Hkept : NoDup (take 15 (fromAi ++ others))).
  { eapply sublist_NoDup; [|apply sublist_take].
    apply NoDup_app. split; [apply uniq_NoDup|]. split.
    - intros k Hk Hk'. by apply (Hothers k), Hai.
    - apply NoDup_filter, uniq_NoDup. }
  rewrite uniq_app, (uniq_id _ Hkept). fold fromAi.
  rewrite (take_app fromAi others), filter_app.
  rewrite (filter_none _ (take 15 fromAi)).
  - rewrite (filter_all _ (take _ others)).
    + simpl. rewrite take_app, take_take. by rewrite Nat.min_id.
    + intros k Hk. apply Hothers. by eapply subseteq_take.
  - intros k Hk Hnot. apply Hnot, Hai. by eapply subseteq_take.
Qed.

(** ** The quick summary *)




(** ** What routes answer *)

Lemma returns_mret {A} (P : A → Prop) a : P a → returns P (mret a).
Proof. intros Ha w. exact Ha. Qed.

Lemma returns_throw {A} (P : A → Prop) e : returns P (throw e).
Proof. intros w. exact I. Qed.

Lemma returns_bind {A B} (P : B → Prop) (m : M A) (k : A → M B) :
  (∀ a, returns P (k a)) → returns P (m ≫= k).
Proof.
  intros Hk w. unfold mbind, M_bind.
  destruct (m w) as [[a|e] w']; [apply Hk|exact I].
Qed.

Lemma answers_mret {A} (P : A → Prop) a : P a → answers P (mret a).
Proof. intros Ha w. by exists a. Qed.

Lemma answers_call {A} (P : A → Prop) e (k : M A) :
  answers P k → answers P (call e;; k).
Proof. intros Hk w. apply Hk. Qed.

Lemma answers_settle {A B} (P : B → Prop) (m : M A) (k : Result A → M B) :
  (∀ r, answers P (k r)) → answers P (settle m ≫= k).
Proof.
  intros Hk w. unfold mbind, M_bind, settle.
  destruct (m w) as [r w']. apply Hk.
Qed.

Lemma answers_tryCatch {A} (P : A → Prop) (body : M A) handler :
  returns P body → (∀ e, answers P (handler e)) →
  answers P (tryCatch body handler).
Proof.
  intros Hb Hh w. unfold tryCatch. specialize (Hb w).
  destruct (body w) as [[a|e] w']; simpl in *; [by exists a|apply Hh].
Qed.

Ltac ret_step :=
  match goal with
  | |- returns _ (mret _) => apply returns_mret
  | |- returns _ (respond _ _) => apply returns_mret
  | |- returns _ (throw _) => apply returns_throw
  | |- returns _ (mbind _ _) => apply returns_bind; intros ?
  | |- returns _ (if ?b then _ else _) => destruct b
  | |- returns _ (match ?x with _ => _ end) => destruct x
  end.

(** Finds an element in a list written out. *)
Ltac in_list :=
  solve [repeat first [apply list_elem_of_here | apply list_elem_of_further]].

(** X7.  Every request to a document or chat route is answered: the
    handler never lets an error escape, and the status is one of 200, 400,
    403, 404 and 500. *)
Theorem every_request_is_answered
    (cfg : Config) (env : Env) (req : Request) (w : World) :
  ∃ resp, (handle cfg env req w).1 = Ok resp
          ∧ code resp ∈ [200; 400; 403; 404; 500].
Proof.
  assert (Hanswers : answers (λ resp, code resp ∈ [200; 400; 403; 404; 500])
                       (handle cfg env req)).
  { destruct req; simpl;
      try (apply answers_settle; intros [reqFile|e];
           [|apply answers_mret; simpl; in_list]);
      unfold getDocumentRoute, uploadRoute, deleteDocumentRoute,
        retryDocumentRoute, getChatRoute, postChatRoute;
      (apply answers_tryCatch;
       [|intros e; apply answers_call, answers_mret; simpl; in_list]);
      cbv zeta; repeat ret_step; simpl; in_list. }
  exact (Hanswers w).
Qed.

(** X8.  A per-document route answers 200 only to the owner of a stored
    document: whatever the storage, the disk and the AI do, a 200 means
    that the id of the request is the ObjectId of a document whose userId
    is the requester. *)
Theorem success_only_for_the_owner
    (cfg : Config) (env : Env) (req : Request) (user id : string) (w : World)
    (resp : Response) :
  documentRequest req = Some (user, id) →
  (handle cfg env req w).1 = Ok resp →
  code resp = 200 →
  ∃ oid d, ObjectId_ofString cfg id = Some oid
           ∧ documents w !! oid = Some d
           ∧ userId d = user.
Proof.
  intros Hreq.
  destruct (passesValidation req) eqn:Hvalid;
    [destruct (ObjectId_ofString cfg id) as [oid|] eqn:Hoid;
     [destruct (rejects env (lookupLine req)) eqn:Hlookup;
      [|destruct (documents w !! oid) as [d|] eqn:Hd;
        [destruct (decide (userId d = user)) as [Hown|Hother];
         [intros _ _; by exists oid, d|]|]]|]|];
    (destruct req as [u i|u f|u i|u i|u i|u i c]; simpl in Hreq; try done;
     injection Hreq as -> ->;
     unfold passesValidation, lookupLine in *; try discriminate;
     rewrite ?negb_true_iff, ?negb_false_iff in Hvalid;
     unfold handle, getDocumentRoute, deleteDocumentRoute,
       retryDocumentRoute, getChatRoute, postChatRoute;
     rewrite ?Hvalid, ?Hlookup; run; rewrite ?Hoid; run; rewrite ?Hd; run;
     rewrite ?bool_decide_eq_true_2 by done; run;
     intros [= <-]; done).
Qed.

(** X9.  When a per-document route cannot look the document up, because
    the driver does not take the id of the request for an ObjectId or
    because the storage refuses the call, it answers 500 with the route's
    own message (never 400 or 404), logs one error and changes nothing
    else. *)
Theorem failed_lookup_is_a_server_error
    (cfg : Config) (env : Env) (req : Request) (user id : string) (w : World) :
  documentRequest req = Some (user, id) →
  passesValidation req = true →
  ObjectId_ofString cfg id = None ∨ rejects env (lookupLine req) = true →
  ∃ message what,
    handle cfg env req w
    = (Ok {| code := 500; body := Message message |},
       set_calls (λ l, l ++ [ConsoleError what]) w)
    ∧ message ∈ ["Failed to fetch document"; "Failed to delete document";
                 "Failed to retry document"; "Failed to fetch chat messages";
                 "Failed to send message"].
Proof.
  intros Hreq Hvalid Hfails.
  destruct req as [u i|u f|u i|u i|u i|u i c]; simpl in Hreq; try done;
    injection Hreq as -> ->; unfold passesValidation, lookupLine in *;
    rewrite ?negb_true_iff in Hvalid;
    unfold handle, getDocumentRoute, deleteDocumentRoute, retryDocumentRoute,
      getChatRoute, postChatRoute;
    rewrite ?Hvalid; run;
    (destruct Hfails as [Hid|Hrejected];
     [rewrite Hid; run
     |rewrite Hrejected; destruct (ObjectId_ofString cfg id); run]);
    do 2 eexists; (split; [reflexivity|]); in_list.
Qed.

(** ** What routes leave alone *)

Lemma sameData_refl w : sameData w w.
Proof. by repeat split. Qed.

(** X10.  The routes that read (one document, the chat messages of a
    document, the list or search of documents, the dashboard statistics)
    change no collection, no file and no detached promise, whether they
    answer or fail: at most they log an error. *)
Theorem read_routes_change_nothing
    (cfg : Config) (regex : string → option (string → bool)) (env : Env)
    (user id : string) (q : option string) (w : World) :
  sameData w (handle cfg env (GetDocument user id) w).2
  ∧ sameData w (handle cfg env (GetChat user id) w).2
  ∧ sameData w (listDocumentsRoute regex env user q w).2
  ∧ sameData w (dashboardStatsRoute env user w).2.
Proof.
  split; [|split; [|split]].
  - assert (Hp : preserves (sameData w) (handle cfg env (GetDocument user id))).
    { unfold handle, getDocumentRoute. frame. }
    apply Hp, sameData_refl.
  - assert (Hp : preserves (sameData w) (handle cfg env (GetChat user id))).
    { unfold handle, getChatRoute. frame. }
    apply Hp, sameData_refl.
  - assert (Hp : preserves (sameData w) (listDocumentsRoute regex env user q)).
    { unfold listDocumentsRoute, searchDocuments. frame. }
    apply Hp, sameData_refl.
  - assert (Hp : preserves (sameData w) (dashboardStatsRoute env user)).
    { unfold dashboardStatsRoute, getDashboardStats. frame. }
    apply Hp, sameData_refl.
Qed.

(** X11.  Deleting a document removes at most its record and its file:
    the pages, extractions and chat messages that refer to it stay in
    their collections, every other document and every other file stays,
    and no promise detached for it is taken back. *)
Theorem delete_leaves_dependent_records
    (cfg : Config) (env : Env) (user id : string) (w : World) :
  let w' := (handle cfg env (DeleteDocument user id) w).2 in
  pages w' = pages w
  ∧ extractions w' = extractions w
  ∧ chatMessages w' = chatMessages w
  ∧ pending w' = pending w
  ∧ (∀ oid, ObjectId_ofString cfg id ≠ Some oid →
            documents w' !! oid = documents w !! oid)
  ∧ (∀ oid d path,
       ObjectId_ofString cfg id = Some oid → documents w !! oid = Some d →
       path ≠ path_join cfg (uploadDir cfg) (filename d) →
       disk w' !! path = disk w !! path).
Proof.
  cbv zeta.
  assert (Hrest : preserves
            (λ w', pages w' = pages w ∧ extractions w' = extractions w
                   ∧ chatMessages w' = chatMessages w ∧ pending w' = pending w)
            (handle cfg env (DeleteDocument user id))).
  { unfold handle, deleteDocumentRoute. frame. }
  destruct (Hrest w) as (Hp & He & Hc & Ht); [done|].
  repeat (split; [assumption|]). split.
  - intros oid Hoid. unfold handle, deleteDocumentRoute. run.
    destruct (ObjectId_ofString cfg id) as [o|] eqn:Ho; run; [|done].
    destruct (rejects env 156); run; [done|].
    destruct (documents w !! o) as [d|] eqn:Hd; run; [|done].
    case_bool_decide; run; [done|].
    destruct (disk w !! _) as [b|] eqn:Hf.
    + rewrite bool_decide_eq_true_2 by eauto. run. rewrite Hf.
      destruct (rejects env 168); run; [done|].
      destruct (rejects env 171); run; [done|].
      apply lookup_delete_ne. congruence.
    + rewrite bool_decide_eq_false_2 by (by intros [? ?]). run.
      destruct (rejects env 171); run; [done|].
      apply lookup_delete_ne. congruence.
  - intros oid d path Hoid Hd Hpath. unfold handle, deleteDocumentRoute. run.
    rewrite Hoid. run. destruct (rejects env 156); run; [done|].
    rewrite Hd. run. case_bool_decide; run; [done|].
    destruct (disk w !! _) as [b|] eqn:Hf.
    + rewrite bool_decide_eq_true_2 by eauto. run. rewrite Hf.
      destruct (rejects env 168); run; [done|].
      destruct (rejects env 171); run; by rewrite lookup_delete_ne.
    + rewrite bool_decide_eq_false_2 by (by intros [? ?]). run.
      by destruct (rejects env 171); run.
Qed.

(** X12.  How a delete of the owner fails.  When the file is there and
    cannot be unlinked, the route answers 500 and keeps both the file and
    the record.  When the file is unlinked and the storage then refuses to
    delete the record, the route answers 500 with the file gone and the
    record still stored, and a retry of that document is then answered 404
    "Document file not found". *)
Theorem delete_failures_keep_the_record
    (cfg : Config) (env : Env) (user id : string) (oid : N) (d : Document)
    (w : World) :
  ObjectId_ofString cfg id = Some oid →
  documents w !! oid = Some d →
  userId d = user →
  rejects env 156 = false →
  let filePath := path_join cfg (uploadDir cfg) (filename d) in
  let w' := (handle cfg env (DeleteDocument user id) w).2 in
  is_Some (disk w !! filePath) →
  (rejects env 168 = true →
   (handle cfg env (DeleteDocument user id) w).1
   = Ok {| code := 500; body := Message "Failed to delete document" |}
   ∧ sameData w w')
  ∧ (rejects env 168 = false → rejects env 171 = true →
     (handle cfg env (DeleteDocument user id) w).1
     = Ok {| code := 500; body := Message "Failed to delete document" |}
     ∧ documents w' = documents w
     ∧ disk w' = delete filePath (disk w)
     ∧ ∀ env', rejects env' 182 = false →
         (handle cfg env' (RetryDocument user id) w').1
         = Ok {| code := 404; body := Message "Document file not found" |}).
Proof.
  intros Hoid Hd Hown H156. cbv zeta. intros [buffer Hfile]. split.
  - intros H168. unfold handle, deleteDocumentRoute. rewrite H156, H168.
    run. rewrite Hoid. run. rewrite Hd. run.
    rewrite bool_decide_eq_false_2 by (intros Hne; by apply Hne). run.
    rewrite Hfile. rewrite bool_decide_eq_true_2 by eauto. run.
    rewrite Hfile. run. by repeat split.
  - intros H168 H171.
    assert (Hdel : ∃ w1,
              handle cfg env (DeleteDocument user id) w
              = (Ok {| code := 500;
                       body := Message "Failed to delete document" |}, w1)
              ∧ documents w1 = documents w
              ∧ disk w1
                = delete (path_join cfg (uploadDir cfg) (filename d)) (disk w)).
    { unfold handle, deleteDocumentRoute. rewrite H156, H168, H171.
      run. rewrite Hoid. run. rewrite Hd. run.
      rewrite bool_decide_eq_false_2 by (intros Hne; by apply Hne). run.
      rewrite Hfile. rewrite bool_decide_eq_true_2 by eauto. run.
      rewrite Hfile. run. eexists. by repeat split. }
    destruct Hdel as (w1 & -> & Hdocs & Hdisk). cbn [fst snd].
    repeat (split; [done|]).
    intros env' H182. unfold handle, retryDocumentRoute. rewrite H182. run.
    rewrite Hoid. run. rewrite Hdocs, Hd. run.
    rewrite bool_decide_eq_false_2 by (intros Hne; by apply Hne). run.
    rewrite Hdisk, lookup_delete_eq.
    rewrite bool_decide_eq_false_2 by (by intros [? ?]). by run.
Qed.

(** ** Retrying *)

(** X13.  For the owner of a stored document, whatever its status, the
    retry route answers 404 "Document file not found" and changes nothing
    when the file is gone; when the file is there and the storage takes
    the update, it sets status "processing" and progress 0, detaches one
    more pipeline run for the document's ObjectId and file path after the
    promises already pending, and answers 200; when the storage refuses
    the update, it answers 500 and starts nothing. *)
Theorem retry_restarts_the_pipeline
    (cfg : Config) (env : Env) (user id : string) (oid : N) (d : Document)
    (w : World) :
  ObjectId_ofString cfg id = Some oid →
  documents w !! oid = Some d →
  userId d = user →
  rejects env 182 = false →
  let filePath := path_join cfg (uploadDir cfg) (filename d) in
  let restarted :=
    {| u_status := Some "processing"; u_processingProgress := Some 0;
       u_processedAt := None; u_pageCount := None |} in
  (disk w !! filePath = None →
   handle cfg env (RetryDocument user id) w
   = (Ok {| code := 404; body := Message "Document file not found" |}, w))
  ∧ (is_Some (disk w !! filePath) → rejects env 198 = false →
     (handle cfg env (RetryDocument user id) w).1
     = Ok {| code := 200;
             body := MessageStatus "Document reprocessing started" "processing" |}
     ∧ documents (handle cfg env (RetryDocument user id) w).2 !! oid
       = Some (applyUpdate restarted d)
     ∧ pending (handle cfg env (RetryDocument user id) w).2
       = pending w ++ [TProcessRetry (IdObj oid) filePath]
     ∧ disk (handle cfg env (RetryDocument user id) w).2 = disk w)
  ∧ (is_Some (disk w !! filePath) → rejects env 198 = true →
     (handle cfg env (RetryDocument user id) w).1
     = Ok {| code := 500; body := Message "Failed to retry document" |}
     ∧ sameData w (handle cfg env (RetryDocument user id) w).2).
Proof.
  intros Hoid Hd Hown H182. cbv zeta. unfold handle, retryDocumentRoute.
  rewrite H182. split; [|split].
  - intros Hfile. run. rewrite Hoid. run. rewrite Hd. run.
    rewrite bool_decide_eq_false_2 by (intros Hne; by apply Hne). run.
    rewrite Hfile. rewrite bool_decide_eq_false_2 by (by intros [? ?]).
    by run.
  - intros Hfile H198. rewrite H198. run. rewrite Hoid. run. rewrite Hd. run.
    rewrite bool_decide_eq_false_2 by (intros Hne; by apply Hne). run.
    destruct Hfile as [buffer Hfile]. rewrite Hfile.
    rewrite bool_decide_eq_true_2 by eauto. cbn [negb]. run.
    repeat split. by rewrite lookup_alter_eq, Hd.
  - intros Hfile H198. rewrite H198. run. rewrite Hoid. run. rewrite Hd. run.
    rewrite bool_decide_eq_false_2 by (intros Hne; by apply Hne). run.
    destruct Hfile as [buffer Hfile]. rewrite Hfile.
    rewrite bool_decide_eq_true_2 by eauto. cbn [negb]. run.
    by repeat split.
Qed.

(** ** Runs of the pipeline, whatever happens *)

Ltac progress_written :=
  unfold newCalls;
  cbn [calls set_calls set_documents set_pages set_extractions set_pending
       set_nextObjectId];
  rewrite <- ?app_assoc; rewrite drop_app_length; simpl;
  first [ exists 1%nat; split; [lia|split; [reflexivity|done]]
        | exists 2%nat; split; [lia|split; [reflexivity|done]]
        | exists 3%nat; split; [lia|split; [reflexivity|done]]
        | exists 4%nat; split; [lia|split; [reflexivity|done]]
        | exists 5%nat; split; [lia|split; [reflexivity|done]] ].

(** X14.  The progress values that a run of the pipeline sends to the
    storage are a beginning of 10, 25, 40, 60, 100, of at least the 10,
    followed by -1 exactly when the run fails: progress never goes back
    before a failure, and a run that succeeds has sent all five. *)
Theorem progress_only_advances
    (cfg : Config) (env : Env) (oid : N) (path : string) (w : World) :
  ∃ k, (1 ≤ k ≤ 5)%nat
       ∧ progressWrites
           (newCalls w (processDocument cfg env (IdObj oid) path w).2)
         = take k [10; 25; 40; 60; 100]
           ++ match (processDocument cfg env (IdObj oid) path w).1 with
              | Ok _ => []
              | Throw _ => [-1]
              end
       ∧ match (processDocument cfg env (IdObj oid) path w).1 with
         | Ok _ => k = 5%nat
         | Throw _ => True
         end.
Proof.
  unfold processDocument.
  destruct (rejects env 439);
    (destruct (rejects env 357); run; [progress_written|]);
    (destruct (disk w !! path) as [buffer|]; run; [|progress_written]);
    (destruct (rejects env 360); run; [progress_written|]);
    (destruct (withTimeout (pdfParse env buffer) 30000 _) as [pdfData|e];
       run; [|progress_written]);
    (destruct (rejects env 371); run; [progress_written|]);
    (destruct (getTextStatistics env _) as [stats|e];
       destruct (rejects env 379); run; try progress_written);
    (destruct (rejects env 387); run; [progress_written|]);
    destruct (lighterNlp env _) as [ents kws];
    (destruct (rejects env 399); run; [progress_written|]);
    (destruct (rejects env 416); run; [progress_written|]);
    (destruct (rejects env 423); run; [progress_written|]);
    destruct (isGeminiConfigured cfg); run; progress_written.
Qed.

Ltac stored Hd :=
  rewrite ?lookup_alter_eq, Hd; simpl; eexists; split; [reflexivity|];
  repeat split; intros; discriminate.

(** How a run of the pipeline on a stored document leaves its record,
    whether or not the error write of the [catch] block is taken. *)
Lemma processDocument_result cfg env oid path w d :
  documents w !! oid = Some d →
  match processDocument cfg env (IdObj oid) path w with
  | (Ok _, w') =>
      ∃ d', documents w' !! oid = Some d' ∧ sameUpload d d'
            ∧ status d' = "completed" ∧ processingProgress d' = Some 100
  | (Throw _, w') =>
      ∃ d', documents w' !! oid = Some d' ∧ sameUpload d d'
            ∧ (rejects env 439 = false →
               status d' = "error" ∧ processingProgress d' = Some (-1))
  end.
Proof.
  intros Hd. unfold processDocument.
  destruct (rejects env 439);
    (destruct (rejects env 357); run; [stored Hd|]);
    (destruct (disk w !! path) as [buffer|]; run; [|stored Hd]);
    (destruct (rejects env 360); run; [stored Hd|]);
    (destruct (withTimeout (pdfParse env buffer) 30000 _) as [pdfData|e];
       run; [|stored Hd]);
    (destruct (rejects env 371); run; [stored Hd|]);
    (destruct (getTextStatistics env _) as [stats|e];
       destruct (rejects env 379); run; try (stored Hd));
    (destruct (rejects env 387); run; [stored Hd|]);
    destruct (lighterNlp env _) as [ents kws];
    (destruct (rejects env 399); run; [stored Hd|]);
    (destruct (rejects env 416); run; [stored Hd|]);
    (destruct (rejects env 423); run; [stored Hd|]);
    destruct (isGeminiConfigured cfg); run; stored Hd.
Qed.

(** X15.  A detached run of the pipeline on a stored document never
    rejects, whatever fails inside it, and never changes the owner or the
    file of the record.  Unless the storage refuses both error writes (the
    one of the pipeline's [catch] block and the one of the [.catch] given
    where the run was started), it leaves the document "completed" with
    progress 100 or in status "error": a finished run leaves no document
    in "processing". *)
Theorem detached_run_settles_the_status
    (cfg : Config) (env : Env) (envOf : N → Env) (t : Task) (oid : N)
    (path : string) (d : Document) (w : World) :
  pipelineTask t oid path →
  documents w !! oid = Some d →
  (runTask cfg env envOf t w).1 = Ok tt
  ∧ ∃ d', documents (runTask cfg env envOf t w).2 !! oid = Some d'
          ∧ sameUpload d d'
          ∧ (rejects env 439 = false ∨ rejects env (catchLine t) = false →
             status d' = "completed" ∧ processingProgress d' = Some 100
             ∨ status d' = "error").
Proof.
  intros Ht Hd.
  pose proof (processDocument_result cfg env oid path w d Hd) as Hrun.
  assert (Hcatch : ∀ l u w1 d1,
            documents w1 !! oid = Some d1 → sameUpload d d1 →
            (rejects env 439 = false → status d1 = "error") →
            u_status u = Some "error" →
            ∃ d', documents
                    (settle (updateDocument cfg (rejects env l) (IdObj oid) u)
                       w1).2 !! oid = Some d'
                  ∧ sameUpload d d'
                  ∧ (rejects env 439 = false ∨ rejects env l = false →
                     status d' = "error")).
  { intros l u w1 d1 Hd1 Hsame Hst Hu. run.
    destruct (rejects env l); run.
    - exists d1. split; [exact Hd1|]. split; [exact Hsame|].
      intros [H|H]; [by apply Hst|discriminate].
    - rewrite lookup_alter_eq, Hd1. simpl. eexists. split; [reflexivity|].
      split; [exact Hsame|]. intros _. simpl. by rewrite Hu. }
  destruct Ht as [-> | ->]; unfold runTask, tryCatch;
    destruct (processDocument cfg env (IdObj oid) path w) as [[[]|e] w1];
    destruct Hrun as (d1 & Hd1 & Hsame & Hst).
  - split; [reflexivity|]. exists d1. simpl. eauto 6.
  - split. { run. by destruct (rejects env 144). }
    destruct (Hcatch (catchLine (TProcessUpload (IdObj oid) path))
                {| u_status := Some "error"; u_processingProgress := None;
                   u_processedAt := None; u_pageCount := None |}
                (set_calls
                   (λ l, l ++ [ConsoleError "Error processing document:"]) w1)
                d1 Hd1 Hsame) as (d' & Hd' & Hsame' & Hst');
      [intros H; by apply Hst|reflexivity|].
    exists d'. split; [|split; [exact Hsame'|intros H; right; by apply Hst']].
    revert Hd'. unfold catchLine. run. by destruct (rejects env 144).
  - split; [reflexivity|]. exists d1. simpl. eauto 6.
  - split. { run. by destruct (rejects env 203). }
    destruct (Hcatch (catchLine (TProcessRetry (IdObj oid) path))
                {| u_status := Some "error"; u_processingProgress := Some (-1);
                   u_processedAt := None; u_pageCount := None |}
                (set_calls
                   (λ l, l ++ [ConsoleError "Error reprocessing document:"]) w1)
                d1 Hd1 Hsame) as (d' & Hd' & Hsame' & Hst');
      [intros H; by apply Hst|reflexivity|].
    exists d'. split; [|split; [exact Hsame'|intros H; right; by apply Hst']].
    revert Hd'. unfold catchLine. run. by destruct (rejects env 203).
Qed.

Ltac untouched :=
  cbn [documents pages extractions chatMessages disk pending
       set_documents set_pages set_extractions set_chatMessages set_disk
       set_nextObjectId set_pending set_calls];
  repeat split;
  try reflexivity;
  try (intros; by rewrite ?lookup_alter_ne by done);
  try (by rewrite ?dom_alter_L);
  try (left; reflexivity);
  try (right; eexists; split; reflexivity).

(** X16.  A run of the pipeline, however it ends, writes no file and no
    chat message, creates and removes no document and changes no document
    but its own; it adds at most one page and at most one extraction, both
    under the ObjectId it was given, and detaches nothing but at most one
    AI enhancement for that same ObjectId. *)
Theorem pipeline_touches_only_its_document
    (cfg : Config) (env : Env) (oid : N) (path : string) (w : World) :
  let w' := (processDocument cfg env (IdObj oid) path w).2 in
  disk w' = disk w
  ∧ chatMessages w' = chatMessages w
  ∧ dom (documents w') = dom (documents w)
  ∧ (∀ other, other ≠ oid → documents w' !! other = documents w !! other)
  ∧ (pages w' = pages w
     ∨ ∃ page, pages w' = pages w ++ [page] ∧ pg_documentId page = IdObj oid)
  ∧ (extractions w' = extractions w
     ∨ ∃ extraction, extractions w' = extractions w ++ [extraction]
                     ∧ ex_documentId extraction = IdObj oid)
  ∧ (pending w' = pending w
     ∨ ∃ text, pending w' = pending w ++ [TEnhance (IdObj oid) text]
               ∧ isGeminiConfigured cfg = true).
Proof.
  cbv zeta. unfold processDocument.
  destruct (rejects env 439);
    (destruct (rejects env 357); run; [untouched|]);
    (destruct (disk w !! path) as [buffer|]; run; [|untouched]);
    (destruct (rejects env 360); run; [untouched|]);
    (destruct (withTimeout (pdfParse env buffer) 30000 _) as [pdfData|e];
       run; [|untouched]);
    (destruct (rejects env 371); run; [untouched|]);
    (destruct (getTextStatistics env _) as [stats|e];
       destruct (rejects env 379); run; try untouched);
    (destruct (rejects env 387); run; [untouched|]);
    destruct (lighterNlp env _) as [ents kws];
    (destruct (rejects env 399); run; [untouched|]);
    (destruct (rejects env 416); run; [untouched|]);
    (destruct (rejects env 423); run; [untouched|]);
    destruct (isGeminiConfigured cfg); run; untouched.
Qed.

(** ** ObjectIds and id strings *)

Lemma setData_documentId oid a x : ex_documentId (setData oid a x) = ex_documentId x.
Proof. unfold setData. by case_bool_decide. Qed.

(** Proves that a program whose pages, extractions and detached promises
    are made for ObjectIds keeps [refersByObjectId]. *)
Ltac keyed :=
  cbv beta iota zeta delta
    [consoleError respond driver newObjectId existsSync readFileSync unlinkSync
     getDocuments getDocument getExtractions getPages
     getDocumentWithExtractions createDocument updateDocument deleteDocument
     createPage createExtraction getChatMessages createChatMessage
     getExtraction updateExtraction];
  repeat first [ apply preserves_bind_mret | inv_step ];
  try (intros ? (? & ? & ?); unfold refersByObjectId;
       cbn [documents pages extractions chatMessages disk nextObjectId
            pending calls set_documents set_pages set_extractions
            set_chatMessages set_disk set_nextObjectId set_pending set_calls];
       repeat split; try assumption;
       first [ apply Forall_app; split;
               [assumption|apply Forall_singleton; exact I]
             | apply Forall_fmap; eapply Forall_impl; [eassumption|];
               intros ? ?; simpl; by rewrite setData_documentId ]).

Section Keys.

Context (cfg : Config).

Lemma processDocument_keyed env oid path :
  preserves refersByObjectId (processDocument cfg env (IdObj oid) path).
Proof. unfold processDocument. keyed. Qed.

Lemma enhanceAnalysisWithAI_keyed env id text :
  preserves refersByObjectId (enhanceAnalysisWithAI env id text).
Proof. unfold enhanceAnalysisWithAI, enhanceAttempt. keyed. Qed.

Lemma handle_keyed env req : preserves refersByObjectId (handle cfg env req).
Proof.
  destruct req; simpl;
    unfold getDocumentRoute, uploadRoute, uploadSingle, deleteDocumentRoute,
      retryDocumentRoute, getChatRoute, postChatRoute; keyed.
Qed.

Lemma startupSweep_keyed env envOf :
  preserves refersByObjectId (startupSweep cfg env envOf).
Proof.
  unfold startupSweep.
  apply preserves_tryCatch; [|intros e; keyed].
  apply preserves_bind; [keyed|]. intros docs.
  cbv zeta. destruct (0 <? _); [|keyed].
  apply preserves_bind; [|intros; keyed].
  apply preserves_allOfList. intros doc _. unfold reprocess. cbv zeta.
  apply preserves_bind; [keyed|].
  intros [|]; [apply processDocument_keyed|keyed].
Qed.

Lemma runTask_keyed env envOf t :
  taskOnObjectId t → preserves refersByObjectId (runTask cfg env envOf t).
Proof.
  destruct t as [[s|oid] path|[s|oid] path|id text|]; simpl; try done; intros _.
  - apply preserves_tryCatch; [apply processDocument_keyed|]. intros e. keyed.
  - apply preserves_tryCatch; [apply processDocument_keyed|]. intros e. keyed.
  - apply preserves_tryCatch; [apply enhanceAnalysisWithAI_keyed|].
    intros e. keyed.
  - apply startupSweep_keyed.
Qed.

Lemma Step_keyed w w' : Step cfg w w' → refersByObjectId w → refersByObjectId w'.
Proof.
  intros [env req | env envOf t before after Hp] (Hpages & Hexts & Htasks).
  - by apply handle_keyed.
  - rewrite Hp in Htasks. apply Forall_app in Htasks as [Hb Ht].
    apply Forall_cons in Ht as [Ht Ha].
    apply runTask_keyed; [exact Ht|].
    repeat split; try assumption. simpl. apply Forall_app. by split.
Qed.

End Keys.

Lemma stored_under_ObjectId_not_found {A} (key : A → IdVal) (l : list A) s :
  Forall (λ x, isObjectId (key x)) l →
  filter (λ x, key x = IdStr s) l = [].
Proof.
  intros Hl. apply filter_none. intros x Hx Hkey.
  apply (proj1 (Forall_forall _ _) Hl) in Hx. by rewrite Hkey in Hx.
Qed.

(** X17.  The pipeline stores pages and extractions under the ObjectId of
    their document, while the routes look them up under the id string of
    the request, and the driver does not take the one for the other.  So
    in every state the server reaches from a store whose pages and
    extractions carry ObjectIds (an empty one, for instance), every page,
    every extraction and every detached promise still carries an ObjectId,
    and [getDocumentWithExtractions] on an id string, hence the document
    route, finds the document with no extraction and an empty text. *)
Theorem routes_find_no_pipeline_records
    (cfg : Config) (w0 w : World) :
  Forall (λ p, isObjectId (pg_documentId p)) (pages w0) →
  Forall (λ x, isObjectId (ex_documentId x)) (extractions w0) →
  Reachable cfg w0 w →
  refersByObjectId w
  ∧ (∀ rejected id found,
       (getDocumentWithExtractions cfg rejected (IdStr id) w).1 = Ok (Some found) →
       ∃ oid d, found = (oid, d, [], []))
  ∧ (∀ env user id resp,
       (handle cfg env (GetDocument user id) w).1 = Ok resp →
       code resp = 200 →
       ∃ oid d, body resp = DocumentWithExtractionsJson oid d [] []).
Proof.
  intros Hpages Hexts Hreach.
  assert (Hkeyed : refersByObjectId w).
  { unfold Reachable in Hreach.
    assert (Hboot : refersByObjectId (boot w0)).
    { repeat split; try assumption. apply Forall_singleton. exact I. }
    revert Hboot. induction Hreach as [|w1 w2 w3 Hs _ IH]; [done|].
    intros H1. apply IH. by eapply Step_keyed. }
  assert (Hfound : ∀ rejected id found,
            (getDocumentWithExtractions cfg rejected (IdStr id) w).1
            = Ok (Some found) →
            ∃ oid d, found = (oid, d, [], [])).
  { intros rejected id found. destruct Hkeyed as (Hp & He & _).
    run. destruct (ObjectId_ofString cfg id) as [oid|]; run; [|done].
    destruct rejected; run; [done|].
    destruct (documents w !! oid) as [d|]; run; [|done].
    rewrite (stored_under_ObjectId_not_found ex_documentId) by done.
    rewrite (stored_under_ObjectId_not_found pg_documentId) by done.
    intros [= <-]. by exists oid, d. }
  split; [exact Hkeyed|]. split; [exact Hfound|].
  intros env user id resp. unfold handle, getDocumentRoute, tryCatch.
  destruct (falsy id || _ || _).
  { run. intros [= <-]. done. }
  unfold mbind at 1, M_bind at 1.
  pose proof (Hfound (rejects env 104) id) as Hdoc.
  destruct (getDocumentWithExtractions cfg _ _ w) as [[[found|]|e] w1]; run.
  - destruct (Hdoc found eq_refl) as (oid & d & ->).
    case_bool_decide; run; intros [= <-]; [done|]. intros _. by exists oid, d.
  - intros [= <-]. done.
  - intros [= <-]. done.
Qed.

(** ** Chat *)

Lemma lastN_length {A} n (l : list A) : (length (lastN n l) ≤ n)%nat.
Proof. unfold lastN. rewrite length_drop. lia. Qed.

Lemma lastN_snoc {A} n (l : list A) x : last (lastN (S n) (l ++ [x])) = Some x.
Proof.
  unfold lastN. rewrite length_app. simpl.
  rewrite drop_app_le by lia. apply last_snoc.
Qed.

(** X18.  A question of the owner about a stored document, the storage
    answering, is stored as a "user" message and then answered with 200
    and a stored "assistant" message, both under the id string of the
    request; nothing else changes, and the chat route then shows the
    document's earlier messages followed by these two.  The AI is given
    the stored text (or "No text extracted from document." when there is
    none), the question, and the last messages of the document, at most
    10, the question just stored being the last of them; when the AI
    fails, the assistant's message is an apology and the request still
    succeeds. *)
Theorem chat_question_is_stored_and_answered
    (cfg : Config) (env : Env) (user id : string) (content : Text) (oid : N)
    (d : Document) (w : World) :
  id ≠ "" → content ≠ [] →
  ObjectId_ofString cfg id = Some oid →
  documents w !! oid = Some d →
  userId d = user →
  rejects env 242 = false → rejects env 252 = false →
  rejects env 260 = false → rejects env 280 = false →
  let question :=
    {| cm_id := nextObjectId w; cm_documentId := IdStr id; cm_userId := user;
       cm_role := "user"; cm_content := content |} in
  let earlier := filter (λ m, cm_documentId m = IdStr id) (chatMessages w) in
  let historyForAI := lastN 10 (earlier ++ [question]) in
  let text :=
    if bool_decide (storedText (IdStr id) w = [])
    then utf16 "No text extracted from document."
    else storedText (IdStr id) w in
  let reply :=
    match generateChatResponse env text content
            (map (λ m, (cm_role m, cm_content m)) historyForAI) with
    | Ok response => response
    | Throw _ => apology
    end in
  let answer :=
    {| cm_id := N.succ (nextObjectId w); cm_documentId := IdStr id;
       cm_userId := user; cm_role := "assistant"; cm_content := reply |} in
  let w' := (handle cfg env (PostChat user id content) w).2 in
  (handle cfg env (PostChat user id content) w).1
  = Ok {| code := 200; body := ChatMessageJson answer |}
  ∧ chatMessages w' = chatMessages w ++ [question; answer]
  ∧ (length historyForAI ≤ 10)%nat
  ∧ last historyForAI = Some question
  ∧ documents w' = documents w ∧ pages w' = pages w
  ∧ extractions w' = extractions w ∧ disk w' = disk w
  ∧ pending w' = pending w
  ∧ (∀ env', rejects env' 216 = false → rejects env' 225 = false →
       (handle cfg env' (GetChat user id) w').1
       = Ok {| code := 200;
               body := ChatMessagesJson (earlier ++ [question; answer]) |}).
Proof.
  intros Hid Hcontent Hoid Hd Hown H242 H252 H260 H280. cbv zeta.
  set (question := {| cm_id := nextObjectId w; cm_documentId := IdStr id;
                      cm_userId := user; cm_role := "user";
                      cm_content := content |}).
  set (earlier := filter (λ m, cm_documentId m = IdStr id) (chatMessages w)).
  assert (Hrun : ∃ w' reply,
            handle cfg env (PostChat user id content) w
            = (Ok {| code := 200;
                     body := ChatMessageJson
                       {| cm_id := N.succ (nextObjectId w);
                          cm_documentId := IdStr id; cm_userId := user;
                          cm_role := "assistant"; cm_content := reply |} |}, w')
            ∧ reply
              = match generateChatResponse env
                        (if bool_decide (storedText (IdStr id) w = [])
                         then utf16 "No text extracted from document."
                         else storedText (IdStr id) w)
                        content
                        (map (λ m, (cm_role m, cm_content m))
                           (lastN 10 (earlier ++ [question]))) with
                | Ok response => response
                | Throw _ => apology
                end
            ∧ chatMessages w'
              = chatMessages w
                ++ [question;
                    {| cm_id := N.succ (nextObjectId w);
                       cm_documentId := IdStr id; cm_userId := user;
                       cm_role := "assistant"; cm_content := reply |}]
            ∧ documents w' = documents w ∧ pages w' = pages w
            ∧ extractions w' = extractions w ∧ disk w' = disk w
            ∧ pending w' = pending w).
  { unfold handle, postChatRoute, falsy.
    rewrite H242, H252, H260, H280.
    rewrite (bool_decide_eq_false_2 (id = "")) by done.
    rewrite (bool_decide_eq_false_2 (content = [])) by done.
    cbn [orb]. run. rewrite Hoid. run. rewrite Hd. run.
    rewrite (bool_decide_eq_false_2 (userId d ≠ user))
      by (intros Hne; by apply Hne).
    run. rewrite filter_app, filter_cons_True by done. cbn [filter].
    fold (storedText (IdStr id) w). fold earlier. fold question.
    destruct (generateChatResponse env _ _ _) as [response|e]; run;
      do 2 eexists; (split; [reflexivity|]);
      cbn [chatMessages documents pages extractions disk pending
           set_chatMessages set_nextObjectId set_calls];
      rewrite <- ?app_assoc; by repeat split. }
  destruct Hrun as (w' & reply & -> & <- & Hchat & Hdocs & Hpages & Hexts
                    & Hdisk & Hpending).
  cbn [fst snd].
  split; [done|]. split; [done|]. split; [apply lastN_length|].
  split; [apply lastN_snoc|]. do 5 (split; [done|]).
  intros env' H216 H225. unfold handle, getChatRoute. rewrite H216, H225.
  run. rewrite Hoid. run. rewrite Hdocs, Hd. run.
  rewrite (bool_decide_eq_false_2 (userId d ≠ user))
    by (intros Hne; by apply Hne).
  run. rewrite Hchat, filter_app.
  rewrite (filter_all _ [_; _]); [done|].
  intros m Hm. apply elem_of_cons in Hm as [Hm|Hm]; [by subst m|].
  apply list_elem_of_singleton in Hm. by subst m.
Qed.

(** ** Uploads *)

(** X19.  A request without a file is answered 400 and a PDF over the
    size limit is refused by multer, and neither changes anything.  An
    accepted file is written to the upload directory under the generated
    name, which keeps the extension of the original name; the record the
    route creates carries that name, so that the path the retry and delete
    routes and the sweep compute from the record is the path of the file,
    and it is the path given to the detached run of the pipeline.  When
    the storage refuses the insert, the route answers 500, no record and
    no run are made, and the file stays in the upload directory. *)
Theorem upload_stores_the_file_for_the_pipeline
    (cfg : Config) (env : Env) (user : string) (f : IncomingFile) (w : World) :
  let name := uniqueSuffix env +:+ path_extname cfg (in_originalname f) in
  let path := path_join cfg (uploadDir cfg) name in
  let w' := (handle cfg env (Upload user (Some f)) w).2 in
  handle cfg env (Upload user None) w
  = (Ok {| code := 400; body := Message "No file uploaded" |}, w)
  ∧ (in_mimetype f = "application/pdf" → fileSizeLimit < in_size f →
     handle cfg env (Upload user (Some f)) w
     = (Ok {| code := 500; body := ExpressError "File too large" |}, w))
  ∧ (in_mimetype f = "application/pdf" → in_size f ≤ fileSizeLimit →
     disk w' = <[path := in_content f]> (disk w)
     ∧ (rejects env 132 = false →
        ∃ d, documents w' = <[nextObjectId w := d]> (documents w)
             ∧ userId d = user
             ∧ filename d = name
             ∧ originalName d = in_originalname f
             ∧ fileSize d = in_size f
             ∧ path_join cfg (uploadDir cfg) (filename d) = path
             ∧ pending w'
               = pending w ++ [TProcessUpload (IdObj (nextObjectId w)) path])
     ∧ (rejects env 132 = true →
        (handle cfg env (Upload user (Some f)) w).1
        = Ok {| code := 500; body := Message "Failed to upload document" |}
        ∧ documents w' = documents w
        ∧ pending w' = pending w)).
Proof.
  cbv zeta. split; [reflexivity|]. split.
  - intros Hpdf Hsize. unfold handle, uploadSingle, fileFilter.
    rewrite bool_decide_eq_true_2 by done. run.
    apply Z.ltb_lt in Hsize. rewrite Hsize. by run.
  - intros Hpdf Hsize. unfold handle, uploadSingle, uploadRoute, fileFilter.
    rewrite bool_decide_eq_true_2 by done. run.
    apply Z.ltb_ge in Hsize. rewrite Hsize. run.
    destruct (rejects env 132); run.
    + split; [reflexivity|]. split; [done|]. by intros _.
    + split; [reflexivity|]. split; [|done]. intros _.
      eexists. split; [reflexivity|]. by repeat split.
Qed.



(** ** The sweep, beside the stuck documents *)

Lemma startupSweep_keeps cfg env envOf (I : World → Prop) :
  (∀ doc, preserves I (reprocess cfg envOf doc)) →
  (∀ what, stable I (set_calls (λ l, l ++ [ConsoleError what]))) →
  preserves I (startupSweep cfg env envOf).
Proof.
  intros Hre Hcall. unfold startupSweep.
  apply preserves_tryCatch; [|intros e; apply preserves_call, Hcall].
  apply preserves_bind; [unfold getDocuments; inv_steps|]. intros docs.
  cbv zeta. destruct (0 <? _); [|apply preserves_mret].
  apply preserves_bind; [|intros; apply preserves_mret].
  apply preserves_allOfList. intros doc _. apply Hre.
Qed.

Lemma tryCatch_settles (body : M unit) handler w :
  (∀ e w1, (handler e w1).1 = Ok tt) → (tryCatch body handler w).1 = Ok tt.
Proof.
  intros Hh. unfold tryCatch. destruct (body w) as [[[]|e] w1]; [done|apply Hh].
Qed.

(** X21.  The startup sweep never rejects.  When the storage refuses to
    list the documents it only logs the error, and when no document of the
    mock user is stuck it does nothing at all.  In every case it writes
    no file and no chat message, and a document whose status is not
    "processing" is neither changed nor processed again, whoever owns
    it. *)
Theorem sweep_leaves_settled_documents
    (cfg : Config) (env : Env) (envOf : N → Env) (w : World) :
  let w' := (startupSweep cfg env envOf w).2 in
  (startupSweep cfg env envOf w).1 = Ok tt
  ∧ (rejects env 313 = true →
     w' = set_calls
            (λ l, l ++ [ConsoleError
                          "Error during startup reprocessing of stuck documents:"])
            w)
  ∧ (rejects env 313 = false → sweptDocuments w = [] → w' = w)
  ∧ disk w' = disk w
  ∧ chatMessages w' = chatMessages w
  ∧ (∀ oid doc,
       documents w !! oid = Some doc → status doc ≠ "processing" →
       notRestarted oid w w' ∧ documents w' !! oid = Some doc).
Proof.
  cbv zeta. split; [|split; [|split; [|split; [|split]]]].
  - unfold startupSweep. by apply tryCatch_settles.
  - intros H313. unfold startupSweep. rewrite H313. by run.
  - intros H313 Hnone. unfold startupSweep. rewrite H313. run.
    fold (sweptDocuments w). by rewrite Hnone.
  - apply (startupSweep_keeps cfg env envOf (λ w1, disk w1 = disk w));
      [intros doc; apply reprocess_disk|by intros e w1|done].
  - apply (startupSweep_keeps cfg env envOf
             (λ w1, chatMessages w1 = chatMessages w)); [|by intros e w1|done].
    intros doc. unfold reprocess, processDocument. frame.
  - intros oid doc Hdoc Hsettled.
    pose (Q := λ w1, notRestarted oid w w1 ∧ documents w1 !! oid = Some doc).
    assert (Hlog : ∀ w1, Q w1 →
              Q (set_calls
                   (λ l, l ++ [ConsoleError
                                 "Error during startup reprocessing of stuck documents:"])
                   w1)).
    { intros w1 [Hn Hd]. split; [by apply notRestarted_call|exact Hd]. }
    assert (Hstart : Q w) by (split; [apply notRestarted_refl|done]).
    destruct (rejects env 313) eqn:H313.
    + unfold startupSweep. rewrite H313. run. by apply Hlog.
    + apply (startupSweep_post cfg env envOf w Q H313 Hlog).
      apply preserves_allOfList; [|exact Hstart].
      intros x Hx. assert (Hk : x.1 ≠ oid).
      { destruct x as [k d]. simpl. intros ->.
        apply sweptDocuments_spec in Hx as (Hd & _ & Hstuck). congruence. }
      apply preserves_and;
        [by apply reprocess_notRestarted|by apply reprocess_other_document].
Qed.

(** ** Listings and statistics *)

Lemma countStatus_cons s doc docs :
  countStatus s (doc :: docs)
  = ((if decide (status doc.2 = s) then 1 else 0) + countStatus s docs)%nat.
Proof. unfold countStatus. rewrite filter_cons. by destruct (decide _). Qed.

Lemma countStatus_sum docs :
  (countStatus "processing" docs + countStatus "completed" docs
   + countStatus "error" docs ≤ length docs)%nat
  ∧ (Forall (λ doc, validStatus (status doc.2)) docs →
     (countStatus "processing" docs + countStatus "completed" docs
      + countStatus "error" docs = length docs)%nat).
Proof.
  induction docs as [|doc docs [IHle IHeq]]; [done|].
  rewrite !countStatus_cons. cbn [length]. split.
  - repeat destruct (decide _); try congruence; lia.
  - intros Hvalid. apply Forall_cons in Hvalid as [Hdoc Hdocs].
    specialize (IHeq Hdocs).
    unfold validStatus, statusValues in Hdoc. set_unfold in Hdoc.
    repeat destruct (decide _); try congruence; try lia.
    destruct_or!; congruence.
Qed.

(** X22.  The dashboard route answers with the statistics of the
    requester's own documents, or with 500 exactly when the storage
    refuses the listing: the total is the number of the requester's
    documents, the three counts by status never add up to more than the
    total, and add up to it when every stored status is one of
    "processing", "completed" and "error"; the recent documents are the
    first five of the requester's listing. *)
Theorem dashboard_counts_own_documents (env : Env) (user : string) (w : World) :
  let own := filter (λ doc, userId doc.2 = user) (map_to_list (documents w)) in
  match (dashboardStatsRoute env user w).1 with
  | Ok (Json stats) =>
      rejects env 70 = false
      ∧ totalDocuments stats = length own
      ∧ (processingCount stats + completedCount stats + errorCount stats
         ≤ totalDocuments stats)%nat
      ∧ ((∀ oid d, documents w !! oid = Some d → validStatus (status d)) →
         (processingCount stats + completedCount stats + errorCount stats
          = totalDocuments stats)%nat)
      ∧ recentDocuments stats = take 5 own
      ∧ (length (recentDocuments stats) ≤ 5)%nat
  | Ok (Failure c message) =>
      rejects env 70 = true ∧ c = 500
      ∧ message = "Failed to fetch dashboard stats"
  | Throw _ => False
  end.
Proof.
  cbv zeta. unfold dashboardStatsRoute, getDashboardStats.
  destruct (rejects env 70); run; [done|].
  cbn [totalDocuments processingCount completedCount errorCount
       recentDocuments].
  split; [done|]. split; [done|].
  destruct (countStatus_sum
              (filter (λ doc, userId doc.2 = user) (map_to_list (documents w))))
    as [Hle Heq].
  split; [exact Hle|]. split; [|split; [done|rewrite length_take; lia]].
  intros Hvalid. apply Heq. apply Forall_forall. intros [oid d] Hdoc.
  apply list_elem_of_filter in Hdoc as [_ Hdoc].
  apply elem_of_map_to_list in Hdoc. by eapply Hvalid.
Qed.

(** X23.  The list route answers with the requester's documents and no
    others, each once: all of them without a query or with an empty one,
    and with a query those whose original name the pattern matches.  It
    answers 500 only when the storage refuses the call or the database
    refuses the pattern, and never lets an error escape. *)
Theorem listings_show_only_own_documents
    (regex : string → option (string → bool)) (env : Env) (user : string)
    (q : option string) (w : World) :
  match (listDocumentsRoute regex env user q w).1 with
  | Ok (Json docs) =>
      NoDup docs
      ∧ ∀ oid d,
          (oid, d) ∈ docs
          ↔ documents w !! oid = Some d ∧ userId d = user
            ∧ match q with
              | Some query =>
                  query = ""
                  ∨ ∃ matches, regex query = Some matches
                               ∧ matches (originalName d) = true
              | None => True
              end
  | Ok (Failure c message) =>
      c = 500 ∧ message = "Failed to fetch documents"
      ∧ (rejects env 85 = true ∨ rejects env 86 = true
         ∨ ∃ query, q = Some query ∧ regex query = None)
  | Throw _ => False
  end.
Proof.
  assert (Hall : ∀ P : Document → Prop, (∀ d, P d) →
            NoDup (filter (λ doc : N * Document, userId doc.2 = user)
                     (map_to_list (documents w)))
            ∧ ∀ oid d,
                (oid, d) ∈ filter (λ doc : N * Document, userId doc.2 = user)
                             (map_to_list (documents w))
                ↔ documents w !! oid = Some d ∧ userId d = user ∧ P d).
  { intros P HP. split; [apply NoDup_filter, NoDup_map_to_list|].
    intros oid d. rewrite list_elem_of_filter, elem_of_map_to_list. simpl.
    specialize (HP d). tauto. }
  unfold listDocumentsRoute, searchDocuments, falsy.
  destruct q as [query|].
  - case_bool_decide as Hquery.
    + destruct (rejects env 86); run; [by eauto|].
      apply (Hall (λ d, query = "" ∨ _)). intros d. by left.
    + destruct (rejects env 85); run; [by eauto|].
      destruct (regex query) as [matches|] eqn:Hregex; run;
        [|repeat split; right; right; by exists query].
      split; [apply NoDup_filter, NoDup_map_to_list|].
      intros oid d. rewrite list_elem_of_filter, elem_of_map_to_list. simpl.
      split.
      * intros [[Hu Hm] Hd]. eauto 8.
      * intros (Hd & Hu & [Hempty|(matches' & Hsome & Hm)]); [done|].
        by injection Hsome as <-.
  - destruct (rejects env 86); run; [by eauto|]. by apply (Hall (λ _, True)).
Qed.

(** ** The AI enhancement, when it succeeds *)

Lemma truncate_length n text : 0 ≤ n → jsLength (truncate n text) ≤ n.
Proof.
  intros Hn. unfold truncate, substring0, jsLength.
  destruct (n <? Z.of_nat (length text)) eqn:Hlong.
  - rewrite length_take. lia.
  - apply Z.ltb_ge in Hlong. exact Hlong.
Qed.

(** X24.  The AI enhancement sends Gemini at most the first 5000 code
    units of the text.  When both answers come within 45000 ms and the
    document has an analysis, the one update it sends to the storage
    carries the AI's summary and the first 15 of the merged keywords, and
    keeps the entities, the tables and the two counts of the existing
    analysis; when the document has no analysis, the answers are dropped
    and nothing is written. *)
Theorem enhancement_replaces_summary_and_merges_keywords
    (env : Env) (id : IdVal) (text : Text) (w : World) (ms1 ms2 : Z)
    (aiSummary : Text) (aiKeywords : list Text) :
  let textForAI := truncate 5000 text in
  let found :=
    head (filter (λ e, ex_documentId e = id ∧ extractionType e = "analysis")
            (extractions w)) in
  let w' := (enhanceAnalysisWithAI env id text w).2 in
  generateDocumentSummary env textForAI = Fulfills ms1 aiSummary →
  extractKeywords env textForAI = Fulfills ms2 aiKeywords →
  ms1 < 45000 → ms2 < 45000 →
  rejects env 460 = false →
  jsLength textForAI ≤ 5000
  ∧ (∀ existing, found = Some existing →
       let enhanced :=
         {| summary := aiSummary;
            keywords := take 15 (uniq (aiKeywords ++ keywords (data existing)));
            entities := entities (data existing);
            tables := tables (data existing);
            wordCount := wordCount (data existing);
            characterCount := characterCount (data existing) |} in
       calls w'
       = calls w
         ++ [CallGemini textForAI 45000;
             CallUpdateExtraction (ex_id existing) enhanced]
         ++ (if rejects env 467 then [ConsoleError "AI enhancement failed:"]
             else []))
  ∧ (found = None →
     calls w' = calls w ++ [CallGemini textForAI 45000]
     ∧ extractions w' = extractions w).
Proof.
  cbv zeta. intros Hsummary Hkeywords Hms1 Hms2 H460.
  split; [by apply truncate_length|].
  unfold enhanceAnalysisWithAI, enhanceAttempt. cbv zeta.
  rewrite Hsummary, Hkeywords, H460. unfold promiseAll, withTimeout.
  replace (Z.max ms1 ms2 <? 45000) with true by (symmetry; apply Z.ltb_lt; lia).
  split.
  - intros existing Hfound. run. rewrite Hfound. run.
    destruct (rejects env 467); run; by rewrite <- !app_assoc.
  - intros Hfound. run. rewrite Hfound. by run.
Qed.

(** ** Without a Gemini key *)

(** Proves that a program that starts no enhancement keeps
    [withoutEnhancement]. *)
Ltac plain :=
  cbv beta iota zeta delta
    [consoleError respond driver newObjectId existsSync readFileSync unlinkSync
     getDocuments getDocument getExtractions getPages
     getDocumentWithExtractions createDocument updateDocument deleteDocument
     createPage createExtraction getChatMessages createChatMessage];
  repeat first [ apply preserves_bind_mret | inv_step ];
  try (intros ? (? & ? & ?); unfold withoutEnhancement;
       cbn [documents pages extractions chatMessages disk nextObjectId
            pending calls set_documents set_pages set_extractions
            set_chatMessages set_disk set_nextObjectId set_pending set_calls];
       repeat split; try assumption;
       first [ apply Forall_app; split;
               [assumption|apply Forall_singleton; by intros []]
             | etrans; [eassumption|by apply prefix_app_r] ]).

Section NoKey.

Context (cfg : Config) (Hno : isGeminiConfigured cfg = false) (w0 : World).

Lemma processDocument_plain env id path :
  preserves (withoutEnhancement w0) (processDocument cfg env id path).
Proof. unfold processDocument. rewrite Hno. plain. Qed.

Lemma handle_plain env req : preserves (withoutEnhancement w0) (handle cfg env req).
Proof.
  destruct req; simpl;
    unfold getDocumentRoute, uploadRoute, uploadSingle, deleteDocumentRoute,
      retryDocumentRoute, getChatRoute, postChatRoute; plain.
Qed.

Lemma startupSweep_plain env envOf :
  preserves (withoutEnhancement w0) (startupSweep cfg env envOf).
Proof.
  apply startupSweep_keeps.
  - intros doc. unfold reprocess. cbv zeta.
    apply preserves_bind; [plain|].
    intros [|]; [apply processDocument_plain|plain].
  - intros what w (Hc & Hp & He). repeat split; try assumption.
    simpl. apply Forall_app. split; [assumption|].
    apply Forall_singleton. by intros [].
Qed.

Lemma runTask_plain env envOf t :
  ¬ enhancementTask t →
  preserves (withoutEnhancement w0) (runTask cfg env envOf t).
Proof.
  destruct t as [id path|id path|id text|]; simpl; intros Ht.
  - apply preserves_tryCatch; [apply processDocument_plain|]. intros e. plain.
  - apply preserves_tryCatch; [apply processDocument_plain|]. intros e. plain.
  - by destruct Ht.
  - apply startupSweep_plain.
Qed.

Lemma Step_plain w w' :
  Step cfg w w' → withoutEnhancement w0 w → withoutEnhancement w0 w'.
Proof.
  intros [env req | env envOf t before after Hp] (Hcalls & Htasks & Hexts).
  - by apply handle_plain.
  - rewrite Hp in Htasks. apply Forall_app in Htasks as [Hb Ht].
    apply Forall_cons in Ht as [Ht Ha].
    apply runTask_plain; [exact Ht|].
    repeat split; try assumption. simpl. apply Forall_app. by split.
Qed.

End NoKey.

(** X25.  Gemini counts as configured exactly when the key is set and not
    empty.  On a server without a key the AI enhancement is never started:
    in every state it reaches, no call to Gemini and no update of an
    extraction has been made, no enhancement is pending, and the
    extractions found at startup are still there, unchanged and in their
    order, followed by the ones the pipeline has added. *)
Theorem no_key_no_enhancement (cfg : Config) (w0 w : World) :
  (isGeminiConfigured cfg = false
   ↔ GEMINI_API_KEY cfg = None ∨ GEMINI_API_KEY cfg = Some "")
  ∧ (isGeminiConfigured cfg = false → Reachable cfg w0 w →
     withoutEnhancement w0 w).
Proof.
  split.
  - unfold isGeminiConfigured, falsy.
    destruct (GEMINI_API_KEY cfg) as [key|]; [|by split; [left|]].
    case_bool_decide as Hkey; simpl.
    + subst key. by split; [right|].
    + split; [done|]. intros [?|[= ?]]; done.
  - intros Hno Hreach. unfold Reachable in Hreach.
    assert (Hboot : withoutEnhancement w0 (boot w0)).
    { repeat split; simpl; [constructor| |done].
      apply Forall_singleton. by intros []. }
    revert Hboot. induction Hreach as [|w1 w2 w3 Hs _ IH]; [done|].
    intros H1. apply IH. by eapply Step_plain.
Qed.

(** ** Further properties at the demo installation *)


(** X2 at the demo installation: the entity service never answers, and the
    keywords that the other service found are dropped as well. *)
Lemma lighterNlp_all_or_nothing_witness :
  extractKeywordsFromText demoEnvNlpDown demoText
  = Fulfills 7 [utf16 "quick"; utf16 "lazy"]
  ∧ lighterNlp demoEnvNlpDown demoText = ([], []).
Proof.
  split; [reflexivity|].
  apply (proj1 (proj2 (lighterNlp_all_or_nothing demoEnvNlpDown demoText))).
  intros m found Hfound. discriminate Hfound.
Defined.

(** X3 at the demo installation: Gemini answers "lazy , dog,quick". *)
Lemma extractKeywords_shape_witness :
  ∃ kws, extractKeywords demoEnv demoText = Fulfills 900 kws
         ∧ length kws = 3%nat
         ∧ Forall (λ k, (44%N ∉ k) ∧ trim k = k) kws.
Proof.
  destruct (extractKeywords_shape demoEnv demoText)
    as (prompt & _ & Hanswer & _).
  destruct (Hanswer 900 (utf16 "lazy , dog,quick") eq_refl)
    as (kws & Hkws & Hlength & Hclean).
  exists kws. exact (conj Hkws (conj Hlength Hclean)).
Defined.

(** X4 at the demo installation: fifteen AI keywords leave no room for an
    existing one. *)
Lemma merged_keywords_prefer_ai_witness :
  (15 ≤ length (uniq fifteenKeywords))%nat
  ∧ take 15 (uniq (fifteenKeywords ++ [utf16 "old"])) = fifteenKeywords.
Proof.
  assert (Hlong : (15 ≤ length (uniq fifteenKeywords))%nat)
    by (vm_compute; lia).
  split; [exact Hlong|].
  destruct (merged_keywords_prefer_ai fifteenKeywords [utf16 "old"])
    as (_ & _ & _ & Hfull).
  rewrite (Hfull Hlong). vm_compute. reflexivity.
Defined.


(** X8 at the demo installation: Alice gets her document. *)
Lemma success_only_for_the_owner_witness :
  code <$> (match (handle demoCfg demoEnv (GetDocument "alice" aliceId)
                     demoWorld).1 with
            | Ok resp => Some resp
            | Throw _ => None
            end) = Some 200
  ∧ ∃ oid d, ObjectId_ofString demoCfg aliceId = Some oid
             ∧ documents demoWorld !! oid = Some d
             ∧ userId d = "alice".
Proof.
  split; [vm_compute; reflexivity|].
  eapply (success_only_for_the_owner demoCfg demoEnv
            (GetDocument "alice" aliceId) "alice" aliceId demoWorld);
    [reflexivity|vm_compute; reflexivity|reflexivity].
Defined.

(** X9 at the demo installation: Bob asks for a document under an id that is
    no ObjectId. *)
Lemma failed_lookup_is_a_server_error_witness :
  passesValidation (GetDocument "bob" "not-an-id") = true
  ∧ ObjectId_ofString demoCfg "not-an-id" = None
  ∧ ∃ message what,
      handle demoCfg demoEnv (GetDocument "bob" "not-an-id") demoWorld
      = (Ok {| code := 500; body := Message message |},
         set_calls (λ l, l ++ [ConsoleError what]) demoWorld).
Proof.
  assert (Hvalid : passesValidation (GetDocument "bob" "not-an-id") = true)
    by (vm_compute; reflexivity).
  assert (Hid : ObjectId_ofString demoCfg "not-an-id" = None)
    by (vm_compute; reflexivity).
  destruct (failed_lookup_is_a_server_error demoCfg demoEnv
              (GetDocument "bob" "not-an-id") "bob" "not-an-id" demoWorld
              eq_refl Hvalid (or_introl Hid)) as (message & what & Hresp & _).
  split; [exact Hvalid|]. split; [exact Hid|]. by exists message, what.
Defined.

(** X11 at the demo installation: Alice deletes her document; the mock
    user's document and file stay. *)
Lemma delete_leaves_dependent_records_witness :
  ObjectId_ofString demoCfg aliceId ≠ Some 1%N
  ∧ documents (handle demoCfg demoEnv (DeleteDocument "alice" aliceId)
                 demoWorld).2 !! 1%N
    = Some mockDoc.
Proof.
  assert (Hother : ObjectId_ofString demoCfg aliceId ≠ Some 1%N)
    by (vm_compute; discriminate).
  split; [exact Hother|].
  destruct (delete_leaves_dependent_records demoCfg demoEnv "alice" aliceId
              demoWorld) as (_ & _ & _ & _ & Hdocs & _).
  rewrite (Hdocs 1%N Hother). vm_compute. reflexivity.
Defined.

(** X12 at the demo installation: Alice deletes her document and the file
    cannot be unlinked. *)
Lemma delete_failures_keep_the_record_witness :
  documents demoWorld !! 2%N = Some aliceDoc
  ∧ is_Some (disk demoWorld !! alicePath)
  ∧ rejects demoEnvUnlinkDown 168 = true
  ∧ (handle demoCfg demoEnvUnlinkDown (DeleteDocument "alice" aliceId)
       demoWorld).1
    = Ok {| code := 500; body := Message "Failed to delete document" |}
  ∧ sameData demoWorld
      (handle demoCfg demoEnvUnlinkDown (DeleteDocument "alice" aliceId)
         demoWorld).2.
Proof.
  assert (Hdoc : documents demoWorld !! 2%N = Some aliceDoc)
    by (vm_compute; reflexivity).
  assert (Hfile : is_Some (disk demoWorld !! alicePath))
    by (exists demoBuffer; vm_compute; reflexivity).
  destruct (delete_failures_keep_the_record demoCfg demoEnvUnlinkDown "alice"
              aliceId 2 aliceDoc demoWorld eq_refl Hdoc eq_refl eq_refl Hfile)
    as [Hunlink _].
  destruct (Hunlink eq_refl) as [Hresp Hsame].
  exact (conj Hdoc (conj Hfile (conj eq_refl (conj Hresp Hsame)))).
Defined.

(** X13 at the demo installation: Alice retries her document. *)
Lemma retry_restarts_the_pipeline_witness :
  ObjectId_ofString demoCfg aliceId = Some 2%N
  ∧ documents demoWorld !! 2%N = Some aliceDoc
  ∧ is_Some (disk demoWorld !! alicePath)
  ∧ pending (handle demoCfg demoEnv (RetryDocument "alice" aliceId) demoWorld).2
    = [TProcessRetry (IdObj 2) alicePath]
  ∧ processingProgress <$>
      documents (handle demoCfg demoEnv (RetryDocument "alice" aliceId)
                   demoWorld).2 !! 2%N
    = Some (Some 0).
Proof.
  assert (Hdoc : documents demoWorld !! 2%N = Some aliceDoc)
    by (vm_compute; reflexivity).
  assert (Hfile : is_Some (disk demoWorld !! alicePath))
    by (exists demoBuffer; vm_compute; reflexivity).
  destruct (retry_restarts_the_pipeline demoCfg demoEnv "alice" aliceId 2
              aliceDoc demoWorld eq_refl Hdoc eq_refl eq_refl)
    as (_ & Hretry & _).
  destruct (Hretry Hfile eq_refl) as (_ & Hstored & Hpending & _).
  split; [reflexivity|]. split; [exact Hdoc|]. split; [exact Hfile|].
  split; [exact Hpending|]. rewrite Hstored. reflexivity.
Defined.

(** X15 at the demo installation: the detached run for the mock user's
    document. *)
Lemma detached_run_settles_the_status_witness :
  pipelineTask (TProcessUpload (IdObj 1) mockPath) 1 mockPath
  ∧ documents demoWorld !! 1%N = Some mockDoc
  ∧ (runTask demoCfg demoEnv (λ _, demoEnv)
       (TProcessUpload (IdObj 1) mockPath) demoWorld).1 = Ok tt
  ∧ ∃ d', documents
            (runTask demoCfg demoEnv (λ _, demoEnv)
               (TProcessUpload (IdObj 1) mockPath) demoWorld).2 !! 1%N
          = Some d'
          ∧ sameUpload mockDoc d'
          ∧ (status d' = "completed" ∧ processingProgress d' = Some 100
             ∨ status d' = "error").
Proof.
  assert (Htask : pipelineTask (TProcessUpload (IdObj 1) mockPath) 1 mockPath)
    by (left; reflexivity).
  assert (Hdoc : documents demoWorld !! 1%N = Some mockDoc)
    by (vm_compute; reflexivity).
  destruct (detached_run_settles_the_status demoCfg demoEnv (λ _, demoEnv)
              (TProcessUpload (IdObj 1) mockPath) 1 mockPath mockDoc demoWorld
              Htask Hdoc) as (Hok & d' & Hd' & Hsame & Hstatus).
  split; [exact Htask|]. split; [exact Hdoc|]. split; [exact Hok|].
  exists d'. exact (conj Hd' (conj Hsame (Hstatus (or_introl eq_refl)))).
Defined.

(** X16 at the demo installation: the run on the mock user's document leaves
    Alice's alone. *)
Lemma pipeline_touches_only_its_document_witness :
  2%N ≠ 1%N
  ∧ documents (processDocument demoCfg demoEnv (IdObj 1) mockPath demoWorld).2
      !! 2%N = Some aliceDoc.
Proof.
  assert (Hother : 2%N ≠ 1%N) by discriminate.
  destruct (pipeline_touches_only_its_document demoCfg demoEnv 1 mockPath
              demoWorld) as (_ & _ & _ & Hdocs & _).
  split; [exact Hother|]. rewrite (Hdocs 2%N Hother). vm_compute. reflexivity.
Defined.

(** X17 at the demo installation: after Bob's upload and its pipeline run
    the extraction is stored, and the document route shows Bob his document
    without it. *)
Lemma routes_find_no_pipeline_records_witness :
  Reachable demoCfg demoWorld demoProcessed
  ∧ length (extractions demoProcessed) = 1%nat
  ∧ ∃ resp oid d,
      (handle demoCfg demoEnv (GetDocument "bob" bobId) demoProcessed).1
      = Ok resp
      ∧ code resp = 200
      ∧ body resp = DocumentWithExtractionsJson oid d [] [].
Proof.
  split; [exact demoProcessed_reachable|].
  split; [vm_compute; reflexivity|].
  destruct (routes_find_no_pipeline_records demoCfg demoWorld demoProcessed
              (Forall_nil_2 _) (Forall_nil_2 _) demoProcessed_reachable)
    as (_ & _ & Hroute).
  specialize (Hroute demoEnv "bob" bobId).
  destruct (handle demoCfg demoEnv (GetDocument "bob" bobId) demoProcessed).1
    as [resp|e] eqn:Hresp; [|vm_compute in Hresp; discriminate Hresp].
  assert (Hcode : code resp = 200).
  { vm_compute in Hresp. injection Hresp as <-. reflexivity. }
  destruct (Hroute resp eq_refl Hcode) as (oid & d & Hbody).
  exists resp, oid, d. exact (conj eq_refl (conj Hcode Hbody)).
Defined.

(** X18 at the demo installation: Alice asks about her document. *)
Lemma chat_question_is_stored_and_answered_witness :
  aliceId ≠ "" ∧ demoQuestion ≠ []
  ∧ cm_content <$>
      chatMessages (handle demoCfg demoEnv (PostChat "alice" aliceId demoQuestion)
                      demoWorld).2
    = [demoQuestion; utf16 "It is about a fox."].
Proof.
  assert (Hid : aliceId ≠ "") by discriminate.
  assert (Hcontent : demoQuestion ≠ []) by discriminate.
  assert (Hdoc : documents demoWorld !! 2%N = Some aliceDoc)
    by (vm_compute; reflexivity).
  destruct (chat_question_is_stored_and_answered demoCfg demoEnv "alice" aliceId
              demoQuestion 2 aliceDoc demoWorld Hid Hcontent eq_refl Hdoc
              eq_refl eq_refl eq_refl eq_refl eq_refl) as (_ & Hchat & _).
  split; [exact Hid|]. split; [exact Hcontent|].
  rewrite Hchat. reflexivity.
Defined.

(** X19 at the demo installation: Bob's upload of a PDF of exactly 100 MB. *)
Lemma upload_stores_the_file_for_the_pipeline_witness :
  in_mimetype demoFile = "application/pdf"
  ∧ in_size demoFile ≤ fileSizeLimit
  ∧ disk (handle demoCfg demoEnv (Upload "bob" (Some demoFile)) demoWorld).2
      !! demoUploadPath = Some demoBuffer
  ∧ pending (handle demoCfg demoEnv (Upload "bob" (Some demoFile)) demoWorld).2
    = [TProcessUpload (IdObj 3) demoUploadPath].
Proof.
  assert (Hsize : in_size demoFile ≤ fileSizeLimit)
    by (vm_compute; discriminate).
  destruct (upload_stores_the_file_for_the_pipeline demoCfg demoEnv "bob"
              demoFile demoWorld) as (_ & _ & Haccepted).
  destruct (Haccepted eq_refl Hsize) as (Hdisk & Hstored & _).
  destruct (Hstored eq_refl) as (d & _ & _ & _ & _ & _ & _ & Hpending).
  split; [reflexivity|]. split; [exact Hsize|]. split.
  - rewrite Hdisk. apply lookup_insert_eq.
  - exact Hpending.
Defined.


(** X21 at the demo installation: with only Alice's document in the store
    the sweep does nothing. *)
Lemma sweep_leaves_settled_documents_witness :
  rejects demoEnv 313 = false
  ∧ sweptDocuments aliceWorld = []
  ∧ (startupSweep demoCfg demoEnv (λ _, demoEnv) aliceWorld).2 = aliceWorld.
Proof.
  assert (Hnone : sweptDocuments aliceWorld = []) by (vm_compute; reflexivity).
  destruct (sweep_leaves_settled_documents demoCfg demoEnv (λ _, demoEnv)
              aliceWorld) as (_ & _ & Hidle & _).
  exact (conj eq_refl (conj Hnone (Hidle eq_refl Hnone))).
Defined.

Lemma demoWorld_valid oid d :
  documents demoWorld !! oid = Some d → validStatus (status d).
Proof.
  unfold demoWorld. cbn [documents]. intros Hd.
  apply lookup_insert_Some in Hd as [[_ <-]|[_ Hd]]; [in_list|].
  apply lookup_singleton_Some in Hd as [_ <-]. in_list.
Qed.

(** X22 at the demo installation: Alice's dashboard counts her one document,
    which is being processed. *)
Lemma dashboard_counts_own_documents_witness :
  (∀ oid d, documents demoWorld !! oid = Some d → validStatus (status d))
  ∧ ∃ stats, (dashboardStatsRoute demoEnv "alice" demoWorld).1 = Ok (Json stats)
             ∧ totalDocuments stats = 1%nat
             ∧ (processingCount stats + completedCount stats + errorCount stats
                = totalDocuments stats)%nat.
Proof.
  split; [exact demoWorld_valid|].
  pose proof (dashboard_counts_own_documents demoEnv "alice" demoWorld) as Hstats.
  cbv zeta in Hstats.
  destruct (dashboardStatsRoute demoEnv "alice" demoWorld).1
    as [[stats|c message]|e] eqn:Hroute.
  - destruct Hstats as (_ & Htotal & _ & Hsum & _).
    exists stats. split; [reflexivity|]. split; [|exact (Hsum demoWorld_valid)].
    rewrite Htotal. vm_compute. reflexivity.
  - destruct Hstats as (Hrejected & _). discriminate Hrejected.
  - destruct Hstats.
Defined.

(** X23 at the demo installation: Alice searches for "The" and finds her
    thesis. *)
Lemma listings_show_only_own_documents_witness :
  documents demoWorld !! 2%N = Some aliceDoc
  ∧ demoRegex "The" = Some (String.prefix "The")
  ∧ ∃ docs, (listDocumentsRoute demoRegex demoEnv "alice" (Some "The")
               demoWorld).1 = Ok (Json docs)
            ∧ (2%N, aliceDoc) ∈ docs.
Proof.
  assert (Hdoc : documents demoWorld !! 2%N = Some aliceDoc)
    by (vm_compute; reflexivity).
  split; [exact Hdoc|]. split; [reflexivity|].
  pose proof (listings_show_only_own_documents demoRegex demoEnv "alice"
                (Some "The") demoWorld) as Hlist.
  destruct (listDocumentsRoute demoRegex demoEnv "alice" (Some "The")
              demoWorld).1 as [[docs|c message]|e] eqn:Hroute.
  - exists docs. split; [reflexivity|].
    apply (proj2 Hlist). split; [exact Hdoc|]. split; [reflexivity|].
    right. exists (String.prefix "The"). split; reflexivity.
  - destruct Hlist as (_ & _ & [Hr|[Hr|(query & _ & Hr)]]); discriminate Hr.
  - destruct Hlist.
Defined.

(** X24 at the demo installation: the enhancement of the extraction that the
    pipeline made for Bob's upload. *)
Lemma enhancement_replaces_summary_and_merges_keywords_witness :
  generateDocumentSummary demoEnv (truncate 5000 demoText)
  = Fulfills 900 (utf16 "lazy , dog,quick")
  ∧ extractKeywords demoEnv (truncate 5000 demoText)
    = Fulfills 900 [utf16 "lazy"; utf16 "dog"; utf16 "quick"]
  ∧ jsLength (truncate 5000 demoText) ≤ 5000
  ∧ ∃ existing analysis,
      head (filter (λ e, ex_documentId e = IdObj 3 ∧ extractionType e = "analysis")
              (extractions demoProcessed)) = Some existing
      ∧ last (calls (enhanceAnalysisWithAI demoEnv (IdObj 3) demoText
                       demoProcessed).2)
        = Some (CallUpdateExtraction (ex_id existing) analysis)
      ∧ keywords analysis
        = [utf16 "lazy"; utf16 "dog"; utf16 "quick"].
Proof.
  assert (Hkeywords : extractKeywords demoEnv (truncate 5000 demoText)
                      = Fulfills 900 [utf16 "lazy"; utf16 "dog"; utf16 "quick"])
    by (vm_compute; reflexivity).
  destruct (enhancement_replaces_summary_and_merges_keywords demoEnv (IdObj 3)
              demoText demoProcessed 900 900 (utf16 "lazy , dog,quick")
              [utf16 "lazy"; utf16 "dog"; utf16 "quick"]
              eq_refl Hkeywords eq_refl eq_refl eq_refl)
    as (Hshort & Hfound & _).
  split; [reflexivity|]. split; [exact Hkeywords|]. split; [exact Hshort|].
  destruct (head (filter _ (extractions demoProcessed))) as [existing|] eqn:Hhead;
    [|vm_compute in Hhead; discriminate Hhead].
  exists existing. eexists. split; [reflexivity|].
  rewrite (Hfound existing eq_refl). split.
  - change (rejects demoEnv 467) with false. cbn [app].
    rewrite cons_middle, app_assoc. apply last_snoc.
  - cbn [keywords].
    assert (Hexisting : keywords (data existing) = [utf16 "quick"; utf16 "lazy"]).
    { vm_compute in Hhead. injection Hhead as <-. reflexivity. }
    rewrite Hexisting. vm_compute. reflexivity.
Defined.

Lemma demoProcessedNoKey_reachable :
  Reachable demoCfgNoKey demoWorld demoProcessedNoKey.
Proof.
  eapply rtc_r.
  - eapply rtc_l; [|apply rtc_refl].
    apply (StepRequest demoCfgNoKey (boot demoWorld) demoEnv
             (Upload "bob" (Some demoFile))).
  - apply (StepTask demoCfgNoKey demoUploadedNoKey demoEnv (λ _, demoEnv)
             (TProcessUpload (IdObj 3) demoUploadPath) [TStartupSweep] []).
    vm_compute. reflexivity.
Defined.

(** X25 at the demo installation: without a key, Bob's upload is processed
    and only the sweep is left pending. *)
Lemma no_key_no_enhancement_witness :
  isGeminiConfigured demoCfgNoKey = false
  ∧ Reachable demoCfgNoKey demoWorld demoProcessedNoKey
  ∧ withoutEnhancement demoWorld demoProcessedNoKey
  ∧ pending demoProcessedNoKey = [TStartupSweep].
Proof.
  split; [reflexivity|]. split; [exact demoProcessedNoKey_reachable|].
  split; [|vm_compute; reflexivity].
  exact (proj2 (no_key_no_enhancement demoCfgNoKey demoWorld demoProcessedNoKey)
           eq_refl demoProcessedNoKey_reachable).
Defined.
